(** * text-to-sql-powerhouse: the SQL generators and the /generate-sql route

    A shallow embedding of
      - services/sqlGeneratorSimple.js  (pattern matching, module [Simple]),
      - services/sqlGeneratorAI.js      (Gemini, module [Gemini]),
      - services/sqlGenerator.js        (Vertex + Pinecone, module [Vertex]),
      - routes/api.js                   (module [Api]).

    Strings are sequences of code units below 256 ([string] of the Standard
    Library): on that range [toLowerCase] and the white space of [trim] and
    of the regular expression class \s are the ones defined below.
    Asynchronous functions are computations of the monad [M]: they read the
    answers of the collaborators (database pool, language models, vector
    index) from a [World] and append every call they make to a trace. *)

From Stdlib Require Import String Ascii List Bool Arith NArith ZArith Lia.
From Stdlib Require Import Permutation.
Import ListNotations.
Open Scope list_scope.
Open Scope string_scope.

(** ** JavaScript string primitives *)

Module Js.

Definition LF : string := String (ascii_of_nat 10) "".

(** [s.startsWith(p)] *)
Fixpoint startsWith (s p : string) {struct p} : bool :=
  match p with
  | "" => true
  | String c p' =>
      match s with
      | "" => false
      | String d s' => Ascii.eqb d c && startsWith s' p'
      end
  end.

(** [s.includes(p)]: [p] starts at some position of [s]. *)
Fixpoint includes (s p : string) : bool :=
  startsWith s p ||
  match s with
  | "" => false
  | String _ s' => includes s' p
  end.

(** [s.slice(n)] for [n] within the string. *)
Fixpoint drop (n : nat) (s : string) : string :=
  match n, s with
  | S k, String _ s' => drop k s'
  | _, _ => s
  end.

Definition between (lo n hi : nat) : bool := Nat.leb lo n && Nat.leb n hi.

(** One code unit of [toLowerCase]: A-Z, and the capital letters of the
    Latin-1 supplement (U+00C0-U+00DE without the sign U+00D7), move up by
    32; everything else below 256 is unchanged. *)
Definition lowerChar (c : ascii) : ascii :=
  let n := nat_of_ascii c in
  if between 65 n 90 || (between 192 n 222 && negb (Nat.eqb n 215))
  then ascii_of_nat (n + 32)
  else c.

Fixpoint toLowerCase (s : string) : string :=
  match s with
  | "" => ""
  | String c s' => String (lowerChar c) (toLowerCase s')
  end.

(** White space and line terminators below 256: TAB, LF, VT, FF, CR, SP and
    NBSP.  This is what [trim] removes and what \s matches. *)
Definition isWhiteSpace (c : ascii) : bool :=
  let n := nat_of_ascii c in
  between 9 n 13 || Nat.eqb n 32 || Nat.eqb n 160.

Definition isDigit (c : ascii) : bool := between 48 (nat_of_ascii c) 57.

Fixpoint takeWhile (f : ascii -> bool) (s : string) : string :=
  match s with
  | "" => ""
  | String c s' => if f c then String c (takeWhile f s') else ""
  end.

Fixpoint dropWhile (f : ascii -> bool) (s : string) : string :=
  match s with
  | "" => ""
  | String c s' => if f c then dropWhile f s' else s
  end.

Definition trimStart (s : string) : string := dropWhile isWhiteSpace s.

Fixpoint trimEnd (s : string) : string :=
  match s with
  | "" => ""
  | String c s' =>
      match trimEnd s' with
      | "" => if isWhiteSpace c then "" else String c ""
      | r => String c r
      end
  end.

(** [s.trim()] *)
Definition trim (s : string) : string := trimEnd (trimStart s).

(** The truth value of a string in a condition: only the empty string is
    falsy. *)
Definition truthy (s : string) : bool :=
  match s with "" => false | _ => true end.

(** [s.split('\n')]: always at least one piece. *)
Fixpoint splitLines (s : string) : list string :=
  match s with
  | "" => [""]
  | String c s' =>
      if Ascii.eqb c (ascii_of_nat 10) then "" :: splitLines s'
      else match splitLines s' with
           | l :: ls => String c l :: ls
           | [] => [String c ""]
           end
  end.

(** [ls.join(sep)] *)
Definition join (sep : string) (ls : list string) : string :=
  String.concat sep ls.

(** [s.replace(/p/g, '')] for a literal, non-empty [p]: the scan goes left
    to right; where [p] matches its code units are skipped ([skip] counts
    the ones still to skip), elsewhere the code unit is kept. *)
Fixpoint removeAllFrom (skip : nat) (p s : string) : string :=
  match s with
  | "" => ""
  | String c s' =>
      match skip with
      | S k => removeAllFrom k p s'
      | 0 => if startsWith s p
             then removeAllFrom (String.length p - 1) p s'
             else String c (removeAllFrom 0 p s')
      end
  end.

Definition removeAll (p s : string) : string := removeAllFrom 0 p s.

End Js.

Import Js.

(** ** Asynchronous computations over a trace of collaborator calls *)

(** A thrown [Error] is its message. *)
Inductive Result (A : Type) : Type :=
| Ok (value : A)
| Err (message : string).
Arguments Ok {A} value.
Arguments Err {A} message.

Definition isOk {A} (r : Result A) : bool :=
  match r with Ok _ => true | Err _ => false end.

(** The methods of the winston logger of config/logger.js. *)
Inductive level := Error | Warn | Info | Debug.

(** What a run does to the outside: log lines (level and message; the
    metadata objects and the durations they carry are not modelled) and
    the calls to the collaborators. *)
Inductive event :=
| Log (l : level) (message : string)
| PoolConnect
| ClientQuery (text : string)
| ClientRelease
| GenerateContent (prompt : string)
| EmbedQuery (text : string)
| IndexQuery (index : string) (topK : nat)
| LlmInvoke (prompt : string).

(** Newest event first. *)
Definition trace := list event.

Definition M (A : Type) : Type := trace -> Result A * trace.

Definition ret {A} (a : A) : M A := fun t => (Ok a, t).

Definition throw {A} (message : string) : M A := fun t => (Err message, t).

Definition bind {A B} (m : M A) (k : A -> M B) : M B :=
  fun t =>
    match m t with
    | (Ok a, t') => k a t'
    | (Err e, t') => (Err e, t')
    end.

(** [try { m } catch (error) { h error.message }] *)
Definition tryCatch {A} (m : M A) (h : string -> M A) : M A :=
  fun t =>
    match m t with
    | (Ok a, t') => (Ok a, t')
    | (Err e, t') => h e t'
    end.

(** [try { m } finally { f }]: [f] runs on both exits and keeps the outcome
    of [m] unless it throws itself. *)
Definition tryFinally {A} (m : M A) (f : M unit) : M A :=
  fun t =>
    match m t with
    | (r, t') =>
        match f t' with
        | (Ok _, t'') => (r, t'')
        | (Err e, t'') => (Err e, t'')
        end
    end.

Definition lift {A} (r : Result A) : M A := fun t => (r, t).

Declare Scope js_scope.
Delimit Scope js_scope with js.
Notation "x <- m ;; k" := (bind m (fun x => k))
  (at level 100, m at next level, right associativity) : js_scope.
Notation "m ;; k" := (bind m (fun _ => k))
  (at level 100, right associativity) : js_scope.
Open Scope js_scope.

Definition logger (l : level) (message : string) : M unit :=
  fun t => (Ok tt, Log l message :: t).

(** ** The database: config/db.js and the pg pool *)

(** A row of the catalog query. *)
Record Row := {
  table_name : string;
  column_name : string;
  data_type : string;
  is_nullable : string
}.

(** The pool and its clients answer from the history of the run so far, so
    the database may change between two calls.  [pool_connect] is [Some m]
    when [dbPool.connect()] rejects with message [m]; [client_query] is the
    outcome of [client.query(text)]. *)
Record Database := {
  pool_connect : trace -> option string;
  client_query : trace -> string -> Result (list Row)
}.

Section Pool.

Variable db : Database.

Definition connect : M unit :=
  fun t =>
    match pool_connect db t with
    | None => (Ok tt, PoolConnect :: t)
    | Some e => (Err e, PoolConnect :: t)
    end.

Definition query (text : string) : M (list Row) :=
  fun t => (client_query db t text, ClientQuery text :: t).

Definition release : M unit := fun t => (Ok tt, ClientRelease :: t).

End Pool.

(** ** Schema inspector: getTableSchema *)

Module Column.
Record t := { name : string; type : string; nullable : bool }.
End Column.

Module Table.
Record t := { name : string; columns : list Column.t }.
End Table.

(** The text of the catalog query, as the template literal has it. *)
Definition catalogQuery : string :=
  "SELECT
        t.table_name,
        c.column_name,
        c.data_type,
        c.is_nullable
      FROM information_schema.tables t
      JOIN information_schema.columns c
        ON t.table_name = c.table_name
        AND t.table_schema = c.table_schema
      WHERE t.table_schema = 'public'
        AND t.table_type = 'BASE TABLE'
      ORDER BY t.table_name, c.ordinal_position;".

(** [tables] is a plain object used as a map from table names to entries.
    Its own properties are kept in the order of their creation. *)
Definition JsObject := list (string * Table.t).

Fixpoint getOwn (o : JsObject) (key : string) : option Table.t :=
  match o with
  | [] => None
  | (k, v) :: o' => if String.eqb k key then Some v else getOwn o' key
  end.

(** [o[key] = v]: an existing property keeps its place, a new one goes
    last. *)
Fixpoint setOwn (o : JsObject) (key : string) (v : Table.t) : JsObject :=
  match o with
  | [] => [(key, v)]
  | (k, v') :: o' =>
      if String.eqb k key then (k, v) :: o' else (k, v') :: setOwn o' key v
  end.

(** The properties an object literal inherits from [Object.prototype]:
    reading one of these keys on [{}] gives a function (or, for
    [__proto__], the prototype itself), which is truthy and has no
    [columns]. *)
Definition objectPrototypeKeys : list string :=
  [ "constructor"; "__defineGetter__"; "__defineSetter__"; "hasOwnProperty";
    "__lookupGetter__"; "__lookupSetter__"; "isPrototypeOf";
    "propertyIsEnumerable"; "toString"; "valueOf"; "__proto__";
    "toLocaleString" ].

Definition inherited (key : string) : bool :=
  existsb (String.eqb key) objectPrototypeKeys.

(** The truth value of [tables[key]]. *)
Definition hasTruthy (o : JsObject) (key : string) : bool :=
  match getOwn o key with
  | Some _ => true
  | None => inherited key
  end.

Definition columnOfRow (r : Row) : Column.t :=
  {| Column.name := column_name r;
     Column.type := data_type r;
     Column.nullable := String.eqb (is_nullable r) "YES" |}.

(** The callback of [res.rows.forEach]. *)
Definition groupRow (tables : JsObject) (r : Row) : Result JsObject :=
  let tables1 :=
    if negb (hasTruthy tables (table_name r))
    then setOwn tables (table_name r)
           {| Table.name := table_name r; Table.columns := [] |}
    else tables in
  match getOwn tables1 (table_name r) with
  | Some entry =>
      Ok (setOwn tables1 (table_name r)
            {| Table.name := Table.name entry;
               Table.columns := (Table.columns entry ++ [columnOfRow r])%list |})
  | None => Err "Cannot read properties of undefined (reading 'push')"
  end.

Fixpoint groupRows (tables : JsObject) (rows : list Row) : Result JsObject :=
  match rows with
  | [] => Ok tables
  | r :: rows' =>
      match groupRow tables r with
      | Ok tables' => groupRows tables' rows'
      | Err e => Err e
      end
  end.

(** A key is an array index when it is the canonical decimal form of an
    integer up to 2^32 - 2. *)
Fixpoint digitsValue (acc : N) (s : string) : option N :=
  match s with
  | "" => Some acc
  | String c s' =>
      if isDigit c
      then digitsValue (acc * 10 + (N_of_ascii c - 48))%N s'
      else None
  end.

Definition arrayIndex (key : string) : option N :=
  match key with
  | "" => None
  | String c rest =>
      if Ascii.eqb c "0" && truthy rest then None
      else match digitsValue 0 key with
           | Some n => if (n <=? 4294967294)%N then Some n else None
           | None => None
           end
  end.

Fixpoint insertIndexed (n : N) (v : Table.t) (l : list (N * Table.t))
  : list (N * Table.t) :=
  match l with
  | [] => [(n, v)]
  | (n', v') :: l' =>
      if (n <? n')%N then (n, v) :: l else (n', v') :: insertIndexed n v l'
  end.

Definition indexedValues (o : JsObject) : list (N * Table.t) :=
  fold_right
    (fun kv acc =>
       match arrayIndex (fst kv) with
       | Some n => insertIndexed n (snd kv) acc
       | None => acc
       end) [] o.

Definition namedValues (o : JsObject) : list Table.t :=
  map snd
    (filter (fun kv => match arrayIndex (fst kv) with
                       | None => true
                       | Some _ => false
                       end) o).

(** [Object.values(o)]: the array-index keys in ascending order, then the
    other keys in the order of their creation. *)
Definition Object_values (o : JsObject) : list Table.t :=
  (map snd (indexedValues o) ++ namedValues o)%list.

Section SchemaInspector.

Variable db : Database.

Definition getTableSchema : M (list Table.t) :=
  connect db ;;
  tryFinally
    (rows <- query db catalogQuery ;;
     tables <- lift (groupRows [] rows) ;;
     ret (Object_values tables))
    release.

End SchemaInspector.

(** ** SQL validator: validateSqlSyntax *)

Record ValidationResult := { isValid : bool; error : option string }.

Definition forbiddenKeywords : list string :=
  [ "insert"; "update"; "delete"; "drop"; "create"; "alter"; "truncate";
    "grant"; "revoke" ].

Section Validator.

Variable db : Database.

(** The three services carry the same validator; they differ in the
    predicate handed to [forbiddenKeywords.find], which is the parameter
    [found] here. *)
Definition validateWith (found : string -> option string) (sqlQuery : string)
  : M ValidationResult :=
  logger Debug "Starting SQL syntax validation" ;;
  let normalizedSql := toLowerCase sqlQuery in
  match found normalizedSql with
  | Some _ =>
      logger Warn "SQL validation failed - forbidden keyword detected" ;;
      ret {| isValid := false;
             error := Some "Query contains a forbidden write-operation keyword." |}
  | None =>
      connect db ;;
      tryFinally
        (tryCatch
           (logger Debug "Executing EXPLAIN query for validation" ;;
            query db ("EXPLAIN " ++ sqlQuery) ;;
            logger Info "SQL validation passed" ;;
            ret {| isValid := true; error := None |})
           (fun message =>
              logger Error "SQL validation failed" ;;
              ret {| isValid := false; error := Some message |}))
        release
  end.

End Validator.

(** [`${validationResult.error}`] *)
Definition errorText (v : ValidationResult) : string :=
  match error v with
  | Some e => e
  | None => "undefined"
  end.

Definition DQ : string := String (ascii_of_nat 34) "".

(** ** services/sqlGeneratorSimple.js *)

Module Simple.

Definition foundForbiddenKeyword (normalizedSql : string) : option string :=
  find (fun keyword =>
          includes normalizedSql (" " ++ keyword ++ " ")
          || startsWith normalizedSql (keyword ++ " "))
       forbiddenKeywords.

Definition validateSqlSyntax (db : Database) : string -> M ValidationResult :=
  validateWith db foundForbiddenKeyword.

(** [s.match(/(\d+)\s*(day|days)/)] at one start position, giving the first
    group.  \d+ and \s* take their whole runs: giving back a digit or a
    white space leaves that code unit in front of [day], where it cannot
    match. *)
Definition matchDaysAt (s : string) : option string :=
  let digits := takeWhile isDigit s in
  if truthy digits then
    let rest := dropWhile isWhiteSpace (dropWhile isDigit s) in
    if startsWith rest "day" || startsWith rest "days" then Some digits
    else None
  else None.

(** The leftmost start position that matches. *)
Fixpoint matchDays (s : string) : option string :=
  match matchDaysAt s with
  | Some d => Some d
  | None =>
      match s with
      | "" => None
      | String _ s' => matchDays s'
      end
  end.

(** The texts of the four multi-line templates. *)
Definition ordersByUser : string :=
  "SELECT u.name, u.email, COUNT(o.id) as order_count, SUM(o.total_amount) as total_spent
           FROM users u
           LEFT JOIN orders o ON u.id = o.user_id
           GROUP BY u.id, u.name, u.email
           ORDER BY order_count DESC".

Definition topProducts : string :=
  "SELECT p.name, p.category, COUNT(oi.id) as times_ordered, SUM(oi.quantity) as total_quantity
           FROM products p
           JOIN order_items oi ON p.id = oi.product_id
           GROUP BY p.id, p.name, p.category
           ORDER BY times_ordered DESC
           LIMIT 10".

Definition recentOrders (limit : string) : string :=
  "SELECT * FROM orders
           WHERE created_at >= NOW() - INTERVAL '" ++ limit ++ " days'
           ORDER BY created_at DESC
           LIMIT 100".

Definition productsByCategory : string :=
  "SELECT category, COUNT(*) as product_count, AVG(price) as avg_price
           FROM products
           GROUP BY category
           ORDER BY product_count DESC".

Definition generateSimpleQuery (question : string) (tables : list Table.t)
  : Result string :=
  let lowerQuestion := toLowerCase question in
  if includes lowerQuestion "count" && includes lowerQuestion "users" then
    if includes lowerQuestion "active"
    then Ok "SELECT COUNT(*) as total FROM users WHERE status = 'active'"
    else Ok "SELECT COUNT(*) as total FROM users"
  else if includes lowerQuestion "count" && includes lowerQuestion "products" then
    Ok "SELECT COUNT(*) as total FROM products"
  else if includes lowerQuestion "count" && includes lowerQuestion "orders" then
    if includes lowerQuestion "completed"
    then Ok "SELECT COUNT(*) as total FROM orders WHERE status = 'completed'"
    else Ok "SELECT COUNT(*) as total FROM orders"
  else if includes lowerQuestion "total revenue"
          || includes lowerQuestion "total sales" then
    Ok "SELECT SUM(total_amount) as total_revenue FROM orders WHERE status = 'completed'"
  else if includes lowerQuestion "users" then
    let sql := "SELECT * FROM users" in
    let sql :=
      if includes lowerQuestion "active" then sql ++ " WHERE status = 'active'"
      else if includes lowerQuestion "inactive"
           then sql ++ " WHERE status = 'inactive'"
           else sql in
    Ok (sql ++ " LIMIT 100")
  else if includes lowerQuestion "products" then
    let sql := "SELECT * FROM products" in
    let sql :=
      if includes lowerQuestion "electronics"
      then sql ++ " WHERE category = 'Electronics'"
      else if includes lowerQuestion "furniture"
           then sql ++ " WHERE category = 'Furniture'"
           else if includes lowerQuestion "stationery"
                then sql ++ " WHERE category = 'Stationery'"
                else sql in
    Ok (sql ++ " LIMIT 100")
  else if includes lowerQuestion "orders" then
    let sql := "SELECT * FROM orders" in
    let sql :=
      if includes lowerQuestion "completed"
      then sql ++ " WHERE status = 'completed'"
      else if includes lowerQuestion "pending"
           then sql ++ " WHERE status = 'pending'"
           else if includes lowerQuestion "cancelled"
                then sql ++ " WHERE status = 'cancelled'"
                else sql in
    Ok (sql ++ " LIMIT 100")
  else if includes lowerQuestion "orders by user"
          || includes lowerQuestion "user orders" then
    Ok ordersByUser
  else if includes lowerQuestion "top products"
          || includes lowerQuestion "popular products" then
    Ok topProducts
  else if includes lowerQuestion "recent orders" then
    let limit := match matchDays lowerQuestion with
                 | Some d => d
                 | None => "30"
                 end in
    Ok (recentOrders limit)
  else if includes lowerQuestion "product"
          && includes lowerQuestion "category" then
    Ok productsByCategory
  else
    let tableNames := join ", " (map Table.name tables) in
    Err ("I couldn't understand your question. Available tables: "
         ++ tableNames ++ ". "
         ++ "Try queries like: " ++ DQ ++ "Show all users" ++ DQ ++ ", "
         ++ DQ ++ "Count products" ++ DQ ++ ", "
         ++ DQ ++ "Total revenue" ++ DQ ++ ", "
         ++ DQ ++ "Top products" ++ DQ ++ ", "
         ++ DQ ++ "Orders by user" ++ DQ ++ ", "
         ++ DQ ++ "Recent orders" ++ DQ).

Section Orchestrator.

Variable db : Database.

Definition generateSqlFromQuestion (question : string) : M string :=
  logger Info "Starting simple SQL generation process" ;;
  tryCatch
    (tables <- getTableSchema db ;;
     logger Debug "Retrieved table schema" ;;
     sqlQuery <- lift (generateSimpleQuery question tables) ;;
     logger Debug "Generated SQL query" ;;
     validationResult <- validateSqlSyntax db sqlQuery ;;
     if negb (isValid validationResult)
     then throw ("Generated SQL is invalid: " ++ errorText validationResult)
     else
       logger Info "SQL generation completed successfully" ;;
       ret sqlQuery)
    (fun message =>
       logger Error "SQL generation failed" ;;
       throw message).

End Orchestrator.

End Simple.

(** ** services/sqlGeneratorAI.js *)

Module Gemini.

(** Word for word the predicate of the pattern-matching service. *)
Definition foundForbiddenKeyword (normalizedSql : string) : option string :=
  find (fun keyword =>
          includes normalizedSql (" " ++ keyword ++ " ")
          || startsWith normalizedSql (keyword ++ " "))
       forbiddenKeywords.

Definition validateSqlSyntax (db : Database) : string -> M ValidationResult :=
  validateWith db foundForbiddenKeyword.

Definition describeColumn (col : Column.t) : string :=
  Column.name col ++ " (" ++ Column.type col
  ++ (if Column.nullable col then ", nullable" else "") ++ ")".

Definition describeTable (table : Table.t) : string :=
  "Table: " ++ Table.name table ++ LF ++ "Columns: "
  ++ join ", " (map describeColumn (Table.columns table)).

Definition buildPrompt (question : string) (tables : list Table.t) : string :=
  let schemaDescription := join (LF ++ LF) (map describeTable tables) in
  "You are a PostgreSQL expert. Generate a SQL query to answer the user's question.

DATABASE SCHEMA:
" ++ schemaDescription ++ "

RULES:
1. Return ONLY the SQL query, no explanations or markdown
2. Use PostgreSQL syntax
3. Only use SELECT statements (no INSERT, UPDATE, DELETE, DROP, etc.)
4. Add LIMIT 100 to prevent returning too many rows
5. Use proper JOINs when needed
6. The query must be valid and executable

USER QUESTION:
" ++ question ++ "

SQL QUERY:".

Definition dropOptionalLF (s : string) : string :=
  if startsWith s LF then drop 1 s else s.

(** [s.replace(/^```sql\n?/i, '')] *)
Definition removeFenceSql (s : string) : string :=
  if startsWith (toLowerCase s) "```sql" then dropOptionalLF (drop 6 s) else s.

(** [s.replace(/^```\n?/, '')] *)
Definition removeFenceOpen (s : string) : string :=
  if startsWith s "```" then dropOptionalLF (drop 3 s) else s.

(** [s.replace(/\n?```$/, '')]: the leftmost position from which the rest
    of the text is the fence, with or without the line feed before it. *)
Fixpoint removeFenceClose (s : string) : string :=
  match s with
  | "" => ""
  | String c s' =>
      if String.eqb s (LF ++ "```") || String.eqb s "```" then ""
      else String c (removeFenceClose s')
  end.

(** The predicate of [lines.filter]. *)
Definition keepLine (line : string) : bool :=
  let trimmed := trim line in
  truthy trimmed
  && negb (startsWith trimmed "--")
  && negb (startsWith (toLowerCase trimmed) "here")
  && negb (startsWith (toLowerCase trimmed) "this query").

Definition cleanSqlResponse (response : string) : string :=
  let sql := trim response in
  let sql := removeFenceClose (removeFenceOpen (removeFenceSql sql)) in
  let sql := trim sql in
  let lines := splitLines sql in
  let sqlLines := filter keepLine lines in
  trim (join LF sqlLines).

(** The Gemini client: [generateContent] is the outcome of
    [model.generateContent(prompt)] followed by [response.text()]. *)
Record Model := { generateContent : trace -> string -> Result string }.

Section Orchestrator.

Variable db : Database.
Variable model : Model.

Definition callGemini (prompt : string) : M string :=
  fun t => (generateContent model t prompt, GenerateContent prompt :: t).

Definition generateSqlFromQuestion (question : string) : M string :=
  logger Info "Starting AI-powered SQL generation" ;;
  tryCatch
    (tables <- getTableSchema db ;;
     logger Debug "Retrieved table schema" ;;
     let prompt := buildPrompt question tables in
     logger Debug "Calling Gemini AI" ;;
     text <- callGemini prompt ;;
     let sqlQuery := cleanSqlResponse text in
     logger Debug "Received response from Gemini" ;;
     validationResult <- validateSqlSyntax db sqlQuery ;;
     if negb (isValid validationResult)
     then throw ("Generated SQL is invalid: " ++ errorText validationResult)
     else
       logger Info "AI SQL generation completed successfully" ;;
       ret sqlQuery)
    (fun message =>
       logger Error "AI SQL generation failed" ;;
       throw message).

End Orchestrator.

End Gemini.

(** ** services/sqlGenerator.js *)

Module Vertex.

(** Here the predicate has no [startsWith] disjunct. *)
Definition foundForbiddenKeyword (normalizedSql : string) : option string :=
  find (fun keyword => includes normalizedSql (" " ++ keyword ++ " "))
       forbiddenKeywords.

Definition validateSqlSyntax (db : Database) : string -> M ValidationResult :=
  validateWith db foundForbiddenKeyword.

Definition queryOpen : string := "<@query@>".
Definition queryClose : string := "</@query@>".
Definition explanationOpen : string := "<@explanation@>".

(** The body of the [while] loop, run while the text includes the opening
    tag.  Every round that runs shortens the text, so [fuel] rounds are
    enough when [fuel] is the length of the text ([stripTags_done]). *)
Fixpoint stripTags (fuel : nat) (sqlQuery : string) : string :=
  match fuel with
  | 0 => sqlQuery
  | S fuel' =>
      if includes sqlQuery queryOpen
      then stripTags fuel' (removeAll queryClose (removeAll queryOpen sqlQuery))
      else sqlQuery
  end.

(** Whether the query pattern (the opening tag, a lazy group of any code
    units, the closing tag) matches in [response]: from some start position
    the opening tag, and the closing tag somewhere after it. *)
Fixpoint queryPairMatch (response : string) : bool :=
  (startsWith response queryOpen
   && includes (drop (String.length queryOpen) response) queryClose)
  ||
  match response with
  | "" => false
  | String _ rest => queryPairMatch rest
  end.

(** The first group of the match of the explanation pattern (the opening
    tag, then a greedy group of any code units): all the text after the
    leftmost opening tag. *)
Fixpoint explanationMatch (response : string) : option string :=
  if startsWith response explanationOpen
  then Some (drop (String.length explanationOpen) response)
  else match response with
       | "" => None
       | String _ rest => explanationMatch rest
       end.

(** The value of [sqlQuery] after the loop and the test of the pattern:
    the response without its tags when the pattern matches, the empty
    string otherwise. *)
Definition extractQuery (response : string) : string :=
  let sqlQuery := stripTags (String.length response) response in
  if queryPairMatch response then sqlQuery else "".

(** The branch of [parseAndValidateResponse] for an empty [sqlQuery]: it
    always throws, with the explanation of the model when there is one. *)
Definition rejectResponse (response : string) : M string :=
  logger Warn "No SQL query found in LLM response" ;;
  match explanationMatch response with
  | Some (String c rest) =>
      let explanation := trim (String c rest) in
      logger Info "LLM provided explanation instead of query" ;;
      throw ("LLM explanation: " ++ explanation)
  | _ =>
      logger Error "Invalid response format from LLM" ;;
      throw "Invalid response format from LLM or empty query."
  end.

Section Orchestrator.

(** The vector of an embedding and the metadata object of a Pinecone match
    are opaque; [JSON_stringify x] is [JSON.stringify(x, null, 2)]. *)
Variables Embedding Metadata : Type.
Variable JSON_stringify : list Metadata -> string.

(** The Vertex and Pinecone clients and the two index names of the
    environment. *)
Record Services := {
  embedQuery : trace -> string -> Result Embedding;
  indexQuery : trace -> string -> nat -> Embedding -> Result (list Metadata);
  invoke : trace -> string -> Result string;
  PINECONE_INDEX_NAME : string;
  PINECONE_QUERY_INDEX_NAME : string
}.

Variable db : Database.
Variable services : Services.

Definition callEmbed (text : string) : M Embedding :=
  fun t => (embedQuery services t text, EmbedQuery text :: t).

(** [Promise.all] of the two index queries: both calls are made, in the
    order of the array, before either outcome is looked at; when both
    reject the outcome kept is that of the first of the array. *)
Definition queryBothIndexes (vector : Embedding)
  : M (list Metadata * list Metadata) :=
  fun t =>
    let t1 := IndexQuery (PINECONE_INDEX_NAME services) 5 :: t in
    let t2 := IndexQuery (PINECONE_QUERY_INDEX_NAME services) 3 :: t1 in
    match indexQuery services t (PINECONE_INDEX_NAME services) 5 vector,
          indexQuery services t1 (PINECONE_QUERY_INDEX_NAME services) 3 vector
    with
    | Ok tableResults, Ok queryResults => (Ok (tableResults, queryResults), t2)
    | Err e, _ => (Err e, t2)
    | _, Err e => (Err e, t2)
    end.

Definition callLlm (prompt : string) : M string :=
  fun t => (invoke services t prompt, LlmInvoke prompt :: t).

Definition retrieveContext (question : string)
  : M (list Metadata * list Metadata) :=
  logger Debug "Starting context retrieval process" ;;
  logger Debug "Generating question embedding" ;;
  questionEmbedding <- callEmbed question ;;
  logger Debug "Querying Pinecone indexes for relevant context" ;;
  results <- queryBothIndexes questionEmbedding ;;
  logger Info "Retrieved context from Pinecone" ;;
  ret results.

Definition buildCombinedPrompt (question : string)
  (relevantTables relevantExampleQueries : list Metadata) : string :=
  "
    You are an expert SQL writer. Your task is to write a single, correct SQL query to answer the user's question by analyzing the provided context.
    First, select the most appropriate table(s) from the 'Table Schemas' list. Then, generate the query.

    ===Rules for Table Selection
    1. Use the 'tier' as a strong indicator of table quality. The priority is: Gold > Silver > Bronze > Iron.
    2. Avoid 'Iron' tier tables if a better alternative exists.

    ===Rules for SQL Generation
    1. Your response must start with <@query@> or <@explanation@>.
    2. Respond only with a valid SQL query inside the <@query@> section.
    3. CRITICAL RULE: Wrap all table and column names in double quotes (" ++ DQ ++ ").
    4. If the context is insufficient, explain what is missing in the <@explanation@> section.

    ===SQL Dialect
    PrestoSQL

    ===Table Schemas
    "
  ++ JSON_stringify relevantTables ++
  "

    ===Example Queries (for inspiration)
    "
  ++ JSON_stringify relevantExampleQueries ++
  "

    ===Question
    "
  ++ question ++
  "
  ".

Definition parseAndValidateResponse (response : string) : M string :=
  logger Debug "Starting response parsing and validation" ;;
  let sqlQuery := extractQuery response in
  if negb (truthy sqlQuery) then rejectResponse response
  else
    logger Debug "Extracted SQL query from LLM response" ;;
    validationResult <- validateSqlSyntax db sqlQuery ;;
    if negb (isValid validationResult) then
      logger Error "Generated SQL failed validation" ;;
      throw ("Generated SQL is invalid: " ++ errorText validationResult)
    else
      logger Info "SQL parsing and validation completed successfully" ;;
      ret sqlQuery.

Definition generateSqlFromQuestion (question : string) : M string :=
  logger Info "Starting SQL generation process" ;;
  tryCatch
    (context <- retrieveContext question ;;
     logger Debug "Building combined prompt for LLM" ;;
     let combinedPrompt :=
       buildCombinedPrompt question (fst context) (snd context) in
     logger Debug "Invoking LLM for SQL generation" ;;
     finalResponse <- callLlm combinedPrompt ;;
     logger Debug "Received response from LLM" ;;
     sqlQuery <- parseAndValidateResponse finalResponse ;;
     logger Info "SQL generation completed successfully" ;;
     ret sqlQuery)
    (fun message =>
       logger Error "SQL generation failed" ;;
       throw message).

End Orchestrator.

Arguments embedQuery {Embedding Metadata}.
Arguments indexQuery {Embedding Metadata}.
Arguments invoke {Embedding Metadata}.
Arguments PINECONE_INDEX_NAME {Embedding Metadata}.
Arguments PINECONE_QUERY_INDEX_NAME {Embedding Metadata}.
Arguments callEmbed {Embedding Metadata}.
Arguments queryBothIndexes {Embedding Metadata}.
Arguments callLlm {Embedding Metadata}.
Arguments retrieveContext {Embedding Metadata}.
Arguments buildCombinedPrompt {Metadata}.
Arguments generateSqlFromQuestion {Embedding Metadata}.

End Vertex.

(** ** routes/api.js *)

Module Api.

(** The value of [req.body.question] after [express.json()]: a missing
    property is [Undefined]; arrays and objects are [Object]; numbers are
    kept as integers. *)
Inductive JsValue :=
| Undefined
| Null
| Boolean (b : bool)
| Number (n : Z)
| Str (s : string)
| Object.

Definition truthyValue (v : JsValue) : bool :=
  match v with
  | Undefined | Null => false
  | Boolean b => b
  | Number n => negb (Z.eqb n 0)
  | Str s => truthy s
  | Object => true
  end.

Inductive Body :=
| ErrorBody (error : string)
| SqlBody (sql : string).

Record Response := { status : nat; json : Body }.

Section Route.

(** The generator the router imports (that of services/sqlGeneratorAI.js
    in the source). *)
Variable generateSqlFromQuestion : string -> M string.

(** The handler of [router.post('/generate-sql', ...)].  A truthy
    [question] that is not a string has no [substring]: the handler throws
    while it builds the first log line. *)
Definition generate_sql (question : JsValue) : M Response :=
  (if truthyValue question
   then match question with
        | Str _ => logger Info "SQL generation request received"
        | _ => throw "question.substring is not a function"
        end
   else logger Info "SQL generation request received") ;;
  if negb (truthyValue question) then
    logger Warn "SQL generation request missing question parameter" ;;
    ret {| status := 400; json := ErrorBody "Question is required." |}
  else
    match question with
    | Str q =>
        tryCatch
          (sqlQuery <- generateSqlFromQuestion q ;;
           logger Info "SQL generation completed successfully" ;;
           ret {| status := 200; json := SqlBody sqlQuery |})
          (fun _ =>
             logger Error "Error in generate-sql route" ;;
             ret {| status := 500;
                    json := ErrorBody "Failed to generate SQL query." |})
    | _ => throw "question.substring is not a function"
    end.

End Route.

(** The route as the application wires it. *)
Definition router (db : Database) (model : Gemini.Model)
  : JsValue -> M Response :=
  generate_sql (Gemini.generateSqlFromQuestion db model).

End Api.

(** * Vocabulary of the statements

    Predicates, named traces and texts, and the sample databases and
    worlds the statements below are written with. *)

(** The outcome of a computation does not depend on the trace it starts
    from. *)
Definition sameOutcome {A} (m : M A) : Prop :=
  forall t1 t2, fst (m t1) = fst (m t2).

(** A database whose answers do not depend on the moment of the call. *)
Definition stable (db : Database) : Prop :=
  (forall t1 t2, pool_connect db t1 = pool_connect db t2) /\
  (forall t1 t2 text, client_query db t1 text = client_query db t2 text).

Definition traceAfterSchema (t : trace) : trace :=
  ClientRelease :: ClientQuery catalogQuery :: PoolConnect :: t.

Definition startValidation (t : trace) : trace :=
  Log Debug "Starting SQL syntax validation" :: t.

Definition beforeExplain (t : trace) : trace :=
  Log Debug "Executing EXPLAIN query for validation"
    :: PoolConnect :: startValidation t.

Definition forbidden : ValidationResult :=
  {| isValid := false;
     error := Some "Query contains a forbidden write-operation keyword." |}.

Definition valid : ValidationResult := {| isValid := true; error := None |}.

(** [p] occurs in [s]. *)
Definition contains (s p : string) : Prop := exists a b, s = a ++ p ++ b.

Definition countUsers : string := "SELECT COUNT(*) as total FROM users".

Definition countActiveUsers : string :=
  "SELECT COUNT(*) as total FROM users WHERE status = 'active'".

Definition countProducts : string := "SELECT COUNT(*) as total FROM products".

Definition productsRow : Row :=
  {| table_name := "products"; column_name := "id";
     data_type := "integer"; is_nullable := "NO" |}.

(** A database with one table, products, that explains every statement. *)
Definition productsDb : Database :=
  {| pool_connect := fun _ => None;
     client_query := fun _ text =>
       if String.eqb text catalogQuery then Ok [productsRow] else Ok [] |}.

Inductive pipeline := PatternMatching | GeminiAI | VertexAI.

Section Pipelines.

Variables Embedding Metadata : Type.

(** Everything a generator talks to. *)
Record World := {
  database : Database;
  gemini : Gemini.Model;
  stringify : list Metadata -> string;
  vertex : Vertex.Services Embedding Metadata
}.

Variable w : World.

Definition generate (p : pipeline) : string -> M string :=
  match p with
  | PatternMatching => Simple.generateSqlFromQuestion (database w)
  | GeminiAI => Gemini.generateSqlFromQuestion (database w) (gemini w)
  | VertexAI =>
      Vertex.generateSqlFromQuestion (stringify w) (database w) (vertex w)
  end.

Definition validator (p : pipeline) : string -> M ValidationResult :=
  match p with
  | PatternMatching => Simple.validateSqlSyntax (database w)
  | GeminiAI => Gemini.validateSqlSyntax (database w)
  | VertexAI => Vertex.validateSqlSyntax (database w)
  end.

(** The statements a generator runs before it calls its validator; the
    value is the text handed to the validator. *)
Definition candidate (p : pipeline) (question : string) : M string :=
  match p with
  | PatternMatching =>
      logger Info "Starting simple SQL generation process" ;;
      tables <- getTableSchema (database w) ;;
      logger Debug "Retrieved table schema" ;;
      sqlQuery <- lift (Simple.generateSimpleQuery question tables) ;;
      logger Debug "Generated SQL query" ;;
      ret sqlQuery
  | GeminiAI =>
      logger Info "Starting AI-powered SQL generation" ;;
      tables <- getTableSchema (database w) ;;
      logger Debug "Retrieved table schema" ;;
      logger Debug "Calling Gemini AI" ;;
      text <- Gemini.callGemini (gemini w) (Gemini.buildPrompt question tables) ;;
      logger Debug "Received response from Gemini" ;;
      ret (Gemini.cleanSqlResponse text)
  | VertexAI =>
      logger Info "Starting SQL generation process" ;;
      context <- Vertex.retrieveContext (vertex w) question ;;
      logger Debug "Building combined prompt for LLM" ;;
      logger Debug "Invoking LLM for SQL generation" ;;
      finalResponse <-
        Vertex.callLlm (vertex w)
          (Vertex.buildCombinedPrompt (stringify w) question
             (fst context) (snd context)) ;;
      logger Debug "Received response from LLM" ;;
      logger Debug "Starting response parsing and validation" ;;
      if negb (truthy (Vertex.extractQuery finalResponse))
      then Vertex.rejectResponse finalResponse
      else
        logger Debug "Extracted SQL query from LLM response" ;;
        ret (Vertex.extractQuery finalResponse)
  end.

(** The log lines between the answer of the validator and the end of the
    run. *)
Definition returned (p : pipeline) (t : trace) : trace :=
  match p with
  | PatternMatching => Log Info "SQL generation completed successfully" :: t
  | GeminiAI => Log Info "AI SQL generation completed successfully" :: t
  | VertexAI =>
      Log Info "SQL generation completed successfully"
        :: Log Info "SQL parsing and validation completed successfully" :: t
  end.

Definition failed (p : pipeline) (t : trace) : trace :=
  match p with
  | PatternMatching => Log Error "SQL generation failed" :: t
  | GeminiAI => Log Error "AI SQL generation failed" :: t
  | VertexAI => Log Error "SQL generation failed" :: t
  end.

Definition refused (p : pipeline) (t : trace) : trace :=
  match p with
  | VertexAI => failed p (Log Error "Generated SQL failed validation" :: t)
  | _ => failed p t
  end.

End Pipelines.

Arguments database {Embedding Metadata}.
Arguments gemini {Embedding Metadata}.
Arguments stringify {Embedding Metadata}.
Arguments vertex {Embedding Metadata}.
Arguments generate {Embedding Metadata}.
Arguments validator {Embedding Metadata}.
Arguments candidate {Embedding Metadata}.

(** A world for examples: the database [productsDb], a Gemini model that
    answers with a fenced statement, a Vertex model that answers in the
    tagged format, and empty vector indexes. *)
Definition sampleWorld : World unit unit :=
  {| database := productsDb;
     gemini := {| Gemini.generateContent := fun _ _ =>
                    Ok ("```sql" ++ LF ++ "SELECT 1" ++ LF ++ "```") |};
     stringify := fun _ => "[]";
     vertex := {| Vertex.embedQuery := fun _ _ => Ok tt;
                  Vertex.indexQuery := fun _ _ _ _ => Ok [];
                  Vertex.invoke := fun _ _ => Ok "<@query@>SELECT 1</@query@>";
                  Vertex.PINECONE_INDEX_NAME := "tables";
                  Vertex.PINECONE_QUERY_INDEX_NAME := "queries" |} |}.

(** [keyword] stands in [s] between two spaces, or at the start of [s]
    before a space. *)
Definition standsAlone (s keyword : string) : Prop :=
  contains s (" " ++ keyword ++ " ") \/ exists rest, s = keyword ++ " " ++ rest.

(** A complete pair of query tags: the opening tag and, after it, the
    closing tag. *)
Definition hasQueryPair (response : string) : Prop :=
  exists a b c,
    response = a ++ Vertex.queryOpen ++ b ++ Vertex.queryClose ++ c.

Definition isLog (e : event) : bool :=
  match e with
  | Log _ _ => true
  | _ => false
  end.

(** The response of the specification, whose closing query tag is written
    with the slash after the at sign. *)
Definition specResponse : string :=
  "<@query@>SELECT 1<@/query@><@explanation@></@explanation@>".

(** A world whose Gemini model answers with prose only. *)
Definition proseWorld : World unit unit :=
  {| database := productsDb;
     gemini := {| Gemini.generateContent := fun _ _ =>
                    Ok ("Here is the query you asked for:" ++ LF
                        ++ "-- nothing else") |};
     stringify := stringify sampleWorld;
     vertex := vertex sampleWorld |}.

(** No own key of the object is a key of [Object.prototype]. *)
Definition plainKeys (o : JsObject) : Prop :=
  forall key v, getOwn o key = Some v -> inherited key = false.

Definition pushError : string :=
  "Cannot read properties of undefined (reading 'push')".

Definition constructorRow : Row :=
  {| table_name := "constructor"; column_name := "id";
     data_type := "integer"; is_nullable := "NO" |}.

(** A database with the tables products and constructor. *)
Definition constructorDb : Database :=
  {| pool_connect := fun _ => None;
     client_query := fun _ text =>
       if String.eqb text catalogQuery
       then Ok [constructorRow; productsRow]
       else Ok [] |}.

(** The rows of one table, in the order of the catalog answer. *)
Definition rowsOf (rows : list Row) (key : string) : list Row :=
  filter (fun r => String.eqb (table_name r) key) rows.

Definition listed (rows : list Row) (key : string) : bool :=
  existsb (fun r => String.eqb (table_name r) key) rows.

(** The entry expected for a table: its name and one column per row of
    the table, in the order of the rows. *)
Definition entryOf (rows : list Row) (key : string) : Table.t :=
  {| Table.name := key;
     Table.columns := map columnOfRow (rowsOf rows key) |}.

(** [o] is the grouping of [rows]. *)
Definition groups (rows : list Row) (o : JsObject) : Prop :=
  (forall key,
     getOwn o key
     = if listed rows key then Some (entryOf rows key) else None)
  /\ NoDup (map fst o).

(** ** Vocabulary about what a run does to the outside *)

Definition isModelCall (e : event) : bool :=
  match e with
  | GenerateContent _ | EmbedQuery _ | IndexQuery _ _ | LlmInvoke _ => true
  | _ => false
  end.

Definition isDatabaseCall (e : event) : bool :=
  match e with
  | PoolConnect | ClientQuery _ | ClientRelease => true
  | _ => false
  end.

(** A run of [m] only adds events to the trace, and every event it adds is
    [allowed]. *)
Definition emitsOnly {A} (allowed : event -> bool) (m : M A) : Prop :=
  forall t, exists new,
    snd (m t) = (new ++ t)%list /\ forallb allowed new = true.

(** The number of connections granted by the pool and not yet released. *)
Fixpoint held (db : Database) (t : trace) : nat :=
  match t with
  | [] => 0
  | PoolConnect :: before =>
      match pool_connect db before with
      | None => S (held db before)
      | Some _ => held db before
      end
  | ClientRelease :: before => Nat.pred (held db before)
  | _ :: before => held db before
  end.

(** Every query and every release happened on a held connection, and every
    call of a model, of the embedding service or of a vector index happened
    while no connection was held. *)
Fixpoint disciplined (db : Database) (t : trace) : bool :=
  match t with
  | [] => true
  | e :: before =>
      match e with
      | ClientQuery _ | ClientRelease => Nat.ltb 0 (held db before)
      | GenerateContent _ | EmbedQuery _ | IndexQuery _ _ | LlmInvoke _ =>
          Nat.eqb (held db before) 0
      | _ => true
      end
      && disciplined db before
  end.

(** Started with [n] connections held and the discipline kept so far, a run
    of [m] ends with [n] connections held and the discipline kept. *)
Definition keepsPool (db : Database) (n : nat) {A} (m : M A) : Prop :=
  forall t,
    held db t = n -> disciplined db t = true ->
    held db (snd (m t)) = n /\ disciplined db (snd (m t)) = true.

(** The world of the application as routes/api.js wires it: the database
    and the Gemini model; the Vertex and Pinecone clients are not
    configured. *)
Definition wiredWorld (db : Database) (model : Gemini.Model) : World unit unit :=
  {| database := db;
     gemini := model;
     stringify := fun _ => "";
     vertex := {| Vertex.embedQuery := fun _ _ => Err "not configured";
                  Vertex.indexQuery := fun _ _ _ _ => Err "not configured";
                  Vertex.invoke := fun _ _ => Err "not configured";
                  Vertex.PINECONE_INDEX_NAME := "";
                  Vertex.PINECONE_QUERY_INDEX_NAME := "" |} |}.

(** ** Vocabulary about lines and white space *)

Fixpoint allChars (f : ascii -> bool) (s : string) : bool :=
  match s with
  | "" => true
  | String c s' => f c && allChars f s'
  end.

(** Only white space (or nothing). *)
Definition blank (s : string) : bool := allChars isWhiteSpace s.

(** No line feed: a single line. *)
Definition oneLine (s : string) : bool :=
  allChars (fun c => negb (Ascii.eqb c (ascii_of_nat 10))) s.

(** The text is empty or starts with a code unit that is not white
    space. *)
Definition headSolid (s : string) : Prop :=
  match s with
  | "" => True
  | String c _ => isWhiteSpace c = false
  end.

(** ** Vocabulary about text around the tags *)

(** [s.endsWith(p)] *)
Fixpoint endsWith (s p : string) : bool :=
  String.eqb s p ||
  match s with
  | "" => false
  | String _ s' => endsWith s' p
  end.

(** Nothing in the text starts like a tag: it has no "<@" and no "</". *)
Definition tagFree (s : string) : bool :=
  negb (includes s "<@") && negb (includes s "</").

(** * Properties *)

(** ** The string primitives *)

Section StringFacts.

Lemma startsWith_app (p b : string) : startsWith (p ++ b) p = true.
Proof.
  induction p as [|c p IH]; simpl; [reflexivity|].
  now rewrite Ascii.eqb_refl, IH.
Qed.

Lemma startsWith_spec (s p : string) :
  startsWith s p = true <-> exists b, s = p ++ b.
Proof.
  split.
  - revert s; induction p as [|c p IH]; intros s H.
    + now exists s.
    + destruct s as [|d s]; simpl in H; [discriminate|].
      apply andb_true_iff in H as [Hc Hp].
      apply Ascii.eqb_eq in Hc; subst d.
      destruct (IH _ Hp) as [b ->]. now exists b.
  - intros [b ->]. apply startsWith_app.
Qed.

Lemma startsWith_includes (s p : string) :
  startsWith s p = true -> includes s p = true.
Proof. intros H. destruct s; simpl; now rewrite H. Qed.

Lemma includes_spec (s p : string) :
  includes s p = true <-> exists a b, s = a ++ p ++ b.
Proof.
  split.
  - induction s as [|c s IH]; simpl; intros H.
    + rewrite orb_false_r in H. apply startsWith_spec in H as [b Hb].
      now exists "", b.
    + apply orb_true_iff in H as [H|H].
      * apply startsWith_spec in H as [b Hb]. now exists "", b.
      * destruct (IH H) as (a & b & ->). now exists (String c a), b.
  - intros (a & b & ->).
    induction a as [|c a IH].
    + change ("" ++ p ++ b) with (p ++ b).
      apply startsWith_includes, startsWith_app.
    + simpl. rewrite IH. apply orb_true_r.
Qed.

Lemma append_assoc (a b c : string) : (a ++ b) ++ c = a ++ b ++ c.
Proof. induction a; simpl; congruence. Qed.

Lemma append_empty_r (a : string) : a ++ "" = a.
Proof. induction a; simpl; congruence. Qed.

Lemma drop_app (p b : string) : drop (String.length p) (p ++ b) = b.
Proof. induction p; simpl; [now destruct b|assumption]. Qed.

End StringFacts.

(** ** Computations whose outcome does not depend on the trace *)

Section SameOutcome.

Context {A B : Type}.

Lemma sameOutcome_ret (a : A) : sameOutcome (ret a).
Proof. now intros t1 t2. Qed.

Lemma sameOutcome_throw e : sameOutcome (@throw A e).
Proof. now intros t1 t2. Qed.

Lemma sameOutcome_lift (r : Result A) : sameOutcome (lift r).
Proof. now intros t1 t2. Qed.

Lemma sameOutcome_bind (m : M A) (k : A -> M B) :
  sameOutcome m -> (forall a, sameOutcome (k a)) -> sameOutcome (bind m k).
Proof.
  intros Hm Hk t1 t2. unfold bind. specialize (Hm t1 t2).
  destruct (m t1) as [[a1|e1] t1'], (m t2) as [[a2|e2] t2'];
    simpl in Hm; try discriminate; inversion Hm; subst.
  - apply Hk.
  - reflexivity.
Qed.

Lemma sameOutcome_tryCatch (m : M A) (h : string -> M A) :
  sameOutcome m -> (forall e, sameOutcome (h e)) -> sameOutcome (tryCatch m h).
Proof.
  intros Hm Hh t1 t2. unfold tryCatch. specialize (Hm t1 t2).
  destruct (m t1) as [[a1|e1] t1'], (m t2) as [[a2|e2] t2'];
    simpl in Hm; try discriminate; inversion Hm; subst.
  - reflexivity.
  - apply Hh.
Qed.

Lemma sameOutcome_tryFinally (m : M A) (f : M unit) :
  sameOutcome m -> sameOutcome f -> sameOutcome (tryFinally m f).
Proof.
  intros Hm Hf t1 t2. unfold tryFinally. specialize (Hm t1 t2).
  destruct (m t1) as [r1 t1'], (m t2) as [r2 t2']. simpl in Hm; subst.
  specialize (Hf t1' t2').
  destruct (f t1') as [[[]|e1] t1''], (f t2') as [[[]|e2] t2''];
    simpl in *; try discriminate; congruence.
Qed.

End SameOutcome.

Lemma sameOutcome_logger l message : sameOutcome (logger l message).
Proof. now intros t1 t2. Qed.

Lemma sameOutcome_release : sameOutcome release.
Proof. now intros t1 t2. Qed.

Lemma sameOutcome_connect db : stable db -> sameOutcome (connect db).
Proof.
  intros [Hc _] t1 t2. unfold connect. rewrite (Hc t1 t2).
  now destruct (pool_connect db t2).
Qed.

Lemma sameOutcome_query db text : stable db -> sameOutcome (query db text).
Proof. intros [_ Hq] t1 t2. unfold query. simpl. apply Hq. Qed.

Ltac same_outcome :=
  repeat match goal with
    | |- forall _, _ => intro
    | |- sameOutcome (ret _) => apply sameOutcome_ret
    | |- sameOutcome (throw _) => apply sameOutcome_throw
    | |- sameOutcome (lift _) => apply sameOutcome_lift
    | |- sameOutcome (logger _ _) => apply sameOutcome_logger
    | |- sameOutcome release => apply sameOutcome_release
    | |- sameOutcome (connect _) => apply sameOutcome_connect; assumption
    | |- sameOutcome (query _ _) => apply sameOutcome_query; assumption
    | |- sameOutcome (tryFinally _ _) => apply sameOutcome_tryFinally
    | |- sameOutcome (tryCatch _ _) => apply sameOutcome_tryCatch
    | |- sameOutcome (bind _ _) => apply sameOutcome_bind
    | |- sameOutcome (if ?c then _ else _) => destruct c
    end.

Lemma sameOutcome_getTableSchema db : stable db -> sameOutcome (getTableSchema db).
Proof. intros Hdb. unfold getTableSchema. same_outcome. Qed.

Lemma sameOutcome_validateWith db found sqlQuery :
  stable db -> sameOutcome (validateWith db found sqlQuery).
Proof.
  intros Hdb. unfold validateWith.
  apply sameOutcome_bind; [apply sameOutcome_logger|intros _].
  cbv zeta. destruct (found (toLowerCase sqlQuery)); same_outcome.
Qed.

(** ** What one run of the schema inspector and of the validator does *)

Lemma getTableSchema_run db t :
  getTableSchema db t =
  match pool_connect db t with
  | Some e => (Err e, PoolConnect :: t)
  | None =>
      (match client_query db (PoolConnect :: t) catalogQuery with
       | Ok rows =>
           match groupRows [] rows with
           | Ok tables => Ok (Object_values tables)
           | Err e => Err e
           end
       | Err e => Err e
       end,
       traceAfterSchema t)
  end.
Proof.
  cbv [getTableSchema bind tryFinally connect query release lift ret
       traceAfterSchema].
  destruct (pool_connect db t); [reflexivity|].
  destruct (client_query db (PoolConnect :: t) catalogQuery) as [rows|e];
    [|reflexivity].
  now destruct (groupRows [] rows).
Qed.

Lemma validateWith_run db found sqlQuery t :
  validateWith db found sqlQuery t =
  match found (toLowerCase sqlQuery) with
  | Some _ =>
      (Ok forbidden,
       Log Warn "SQL validation failed - forbidden keyword detected"
         :: startValidation t)
  | None =>
      match pool_connect db (startValidation t) with
      | Some e => (Err e, PoolConnect :: startValidation t)
      | None =>
          match client_query db (beforeExplain t) ("EXPLAIN " ++ sqlQuery) with
          | Ok _ =>
              (Ok valid,
               ClientRelease :: Log Info "SQL validation passed"
                 :: ClientQuery ("EXPLAIN " ++ sqlQuery) :: beforeExplain t)
          | Err e =>
              (Ok {| isValid := false; error := Some e |},
               ClientRelease :: Log Error "SQL validation failed"
                 :: ClientQuery ("EXPLAIN " ++ sqlQuery) :: beforeExplain t)
          end
      end
  end.
Proof.
  cbv [validateWith bind tryFinally tryCatch connect query release logger ret
       startValidation beforeExplain forbidden valid].
  destruct (found (toLowerCase sqlQuery)); [reflexivity|].
  match goal with |- context [pool_connect db ?t0] =>
    destruct (pool_connect db t0); [reflexivity|] end.
  match goal with |- context [client_query db ?t0 ?q] =>
    now destruct (client_query db t0 q) end.
Qed.

(** The validator never throws after a connection was granted, it extends
    the trace, and it answers [isValid: true] only when the keyword screen
    found nothing and the database explained the statement. *)
Lemma validateWith_valid_inv db found sqlQuery t v t' :
  validateWith db found sqlQuery t = (Ok v, t') ->
  isValid v = true ->
  v = valid /\
  found (toLowerCase sqlQuery) = None /\
  isOk (client_query db (beforeExplain t) ("EXPLAIN " ++ sqlQuery)) = true /\
  t' = ClientRelease :: Log Info "SQL validation passed"
         :: ClientQuery ("EXPLAIN " ++ sqlQuery) :: beforeExplain t.
Proof.
  rewrite validateWith_run.
  destruct (found (toLowerCase sqlQuery)).
  { intros [= <- <-]. discriminate. }
  destruct (pool_connect db (startValidation t)); [discriminate|].
  destruct (client_query db (beforeExplain t) ("EXPLAIN " ++ sqlQuery)).
  - intros [= <- <-] _. now repeat split.
  - intros [= <- <-]. discriminate.
Qed.

(** ** The pattern-matching generator *)

Lemma includes_contains s p : includes s p = true <-> contains s p.
Proof. apply includes_spec. Qed.

Lemma includes_not_contains s p : includes s p = false <-> ~ contains s p.
Proof.
  rewrite <- includes_contains. destruct (includes s p); intuition congruence.
Qed.

(** C10.  When the lower-cased question contains both "count" and "users",
    generateSimpleQuery returns the aggregate query over users, with the
    condition on status exactly when the question also contains "active",
    and never a row listing that starts with SELECT * FROM users. *)
Theorem count_users_precedence (question : string) (tables : list Table.t) :
  contains (toLowerCase question) "count" ->
  contains (toLowerCase question) "users" ->
  (contains (toLowerCase question) "active" ->
   Simple.generateSimpleQuery question tables = Ok countActiveUsers) /\
  (~ contains (toLowerCase question) "active" ->
   Simple.generateSimpleQuery question tables = Ok countUsers) /\
  (forall rest,
     Simple.generateSimpleQuery question tables
     <> Ok ("SELECT * FROM users" ++ rest)).
Proof.
  intros Hc Hu.
  apply includes_contains in Hc, Hu.
  unfold Simple.generateSimpleQuery. rewrite Hc, Hu. simpl andb. cbv iota.
  repeat split.
  - intros Ha. apply includes_contains in Ha. now rewrite Ha.
  - intros Ha. apply includes_not_contains in Ha. now rewrite Ha.
  - intros rest. destruct (includes (toLowerCase question) "active");
      intros [= H]; discriminate.
Qed.

Lemma count_users_precedence_witness :
  Simple.generateSimpleQuery "How many: COUNT the inactive Users" []
  = Ok countActiveUsers.
Proof.
  refine (proj1 (count_users_precedence
                   "How many: COUNT the inactive Users" [] _ _) _).
  - exists "how many: ", " the inactive users". reflexivity.
  - exists "how many: count the inactive ", "". reflexivity.
  - exists "how many: count the in", " users". reflexivity.
Defined.

(** C6.  For the question "Count all products" generateSimpleQuery gives
    exactly the text of [countProducts]; the keyword screen finds nothing
    in it; and with a database that grants connections and explains the
    statement the validator answers isValid: true, so that (the catalog
    query having answered with rows that group) the generator returns that
    text. *)
Theorem count_all_products (db : Database) (rows : list Row) :
  (forall t, pool_connect db t = None) ->
  (forall t, isOk (client_query db t ("EXPLAIN " ++ countProducts)) = true) ->
  (forall t, client_query db t catalogQuery = Ok rows) ->
  isOk (groupRows [] rows) = true ->
  (forall tables,
     Simple.generateSimpleQuery "Count all products" tables = Ok countProducts)
  /\ Simple.foundForbiddenKeyword (toLowerCase countProducts) = None
  /\ (forall t, fst (Simple.validateSqlSyntax db countProducts t) = Ok valid)
  /\ (forall t,
        fst (Simple.generateSqlFromQuestion db "Count all products" t)
        = Ok countProducts).
Proof.
  intros Hconn Hexplain Hcatalog Hgroup.
  assert (Hgen : forall tables,
            Simple.generateSimpleQuery "Count all products" tables
            = Ok countProducts) by reflexivity.
  assert (Hscreen : Simple.foundForbiddenKeyword (toLowerCase countProducts)
                    = None) by reflexivity.
  assert (Hval : forall t,
            Simple.validateSqlSyntax db countProducts t
            = (Ok valid,
               ClientRelease :: Log Info "SQL validation passed"
                 :: ClientQuery ("EXPLAIN " ++ countProducts)
                 :: beforeExplain t)).
  { intros t. unfold Simple.validateSqlSyntax.
    rewrite validateWith_run, Hscreen, Hconn.
    specialize (Hexplain (beforeExplain t)).
    now destruct (client_query db (beforeExplain t) ("EXPLAIN " ++ countProducts)). }
  repeat split; try assumption.
  - intros t. now rewrite Hval.
  - intros t. unfold Simple.generateSqlFromQuestion.
    unfold bind at 1. unfold logger at 1. unfold tryCatch.
    unfold bind at 1. rewrite getTableSchema_run, Hconn, Hcatalog.
    destruct (groupRows [] rows) as [tables|e]; [|discriminate].
    unfold bind at 1. unfold logger at 1.
    unfold bind at 1. unfold lift. rewrite Hgen.
    unfold bind at 1. unfold logger at 1.
    unfold bind at 1. rewrite Hval. reflexivity.
Qed.

Lemma count_all_products_witness :
  fst (Simple.generateSqlFromQuestion productsDb "Count all products" [])
  = Ok countProducts.
Proof.
  refine (proj2 (proj2 (proj2
            (count_all_products productsDb [productsRow] _ _ _ _))) []).
  - reflexivity.
  - reflexivity.
  - reflexivity.
  - reflexivity.
Defined.

(** ** The tagged response format *)

Lemma rejectResponse_run response t :
  Vertex.rejectResponse response t =
  match Vertex.explanationMatch response with
  | Some (String c rest) =>
      (Err ("LLM explanation: " ++ trim (String c rest)),
       Log Info "LLM provided explanation instead of query"
         :: Log Warn "No SQL query found in LLM response" :: t)
  | _ =>
      (Err "Invalid response format from LLM or empty query.",
       Log Error "Invalid response format from LLM"
         :: Log Warn "No SQL query found in LLM response" :: t)
  end.
Proof.
  cbv [Vertex.rejectResponse bind logger throw].
  now destruct (Vertex.explanationMatch response) as [[|c rest]|].
Qed.

Lemma rejectResponse_throws response t :
  isOk (fst (Vertex.rejectResponse response t)) = false.
Proof.
  rewrite rejectResponse_run.
  now destruct (Vertex.explanationMatch response) as [[|c rest]|].
Qed.

(** ** The three generators behind one interface *)

(** Every generator is its candidate stage followed by the gate on the
    answer of its validator. *)
Lemma generate_gate {Embedding Metadata : Type} (w : World Embedding Metadata)
  (p : pipeline) (question : string) (t : trace) :
  generate w p question t =
  match candidate w p question t with
  | (Err e, t1) => (Err e, failed p t1)
  | (Ok sqlQuery, t1) =>
      match validator w p sqlQuery t1 with
      | (Err e, t2) => (Err e, failed p t2)
      | (Ok v, t2) =>
          if isValid v then (Ok sqlQuery, returned p t2)
          else (Err ("Generated SQL is invalid: " ++ errorText v), refused p t2)
      end
  end.
Proof.
  destruct p; cbn [generate candidate validator returned failed refused].
  - unfold Simple.generateSqlFromQuestion.
    cbv [bind tryCatch logger ret throw lift].
    destruct (getTableSchema (database w) _) as [[tables|e] t1]; [|reflexivity].
    destruct (Simple.generateSimpleQuery question tables); [|reflexivity].
    destruct (Simple.validateSqlSyntax (database w) _ _) as [[v|e] t2];
      [|reflexivity].
    now destruct (isValid v).
  - unfold Gemini.generateSqlFromQuestion.
    cbv [bind tryCatch logger ret throw lift Gemini.callGemini].
    destruct (getTableSchema (database w) _) as [[tables|e] t1]; [|reflexivity].
    destruct (Gemini.generateContent (gemini w) _ _); [|reflexivity].
    destruct (Gemini.validateSqlSyntax (database w) _ _) as [[v|e] t2];
      [|reflexivity].
    now destruct (isValid v).
  - unfold Vertex.generateSqlFromQuestion, Vertex.parseAndValidateResponse.
    cbv [bind tryCatch logger ret throw lift Vertex.callLlm].
    destruct (Vertex.retrieveContext (vertex w) question _)
      as [[context|e] t1]; [|reflexivity].
    destruct (Vertex.invoke (vertex w) _ _) as [finalResponse|e];
      [|reflexivity].
    destruct (truthy (Vertex.extractQuery finalResponse)); cbn [negb].
    + destruct (Vertex.validateSqlSyntax (database w) _ _) as [[v|e] t2];
        [|reflexivity].
      now destruct (isValid v).
    + match goal with |- context [Vertex.rejectResponse ?r ?t0] =>
        pose proof (rejectResponse_throws r t0) as Hr;
        destruct (Vertex.rejectResponse r t0) as [[s|e] t2] end.
      * discriminate.
      * reflexivity.
Qed.

(** C1.  In each of the three generators, a text that is returned is the
    candidate of that run, it was handed to the validator of that
    generator, the validator answered isValid: true (after sending EXPLAIN
    of that very text to the database) and only log lines follow; and when
    the validator answers isValid: false on the candidate, the generator
    throws. *)
Theorem returned_sql_was_validated {Embedding Metadata : Type}
  (w : World Embedding Metadata) (p : pipeline) (question : string)
  (t : trace) :
  (forall sqlQuery t',
     generate w p question t = (Ok sqlQuery, t') ->
     exists t1 t2,
       candidate w p question t = (Ok sqlQuery, t1) /\
       validator w p sqlQuery t1 = (Ok valid, t2) /\
       In (ClientQuery ("EXPLAIN " ++ sqlQuery)) t2 /\
       t' = returned p t2)
  /\
  (forall sqlQuery t1 v t2,
     candidate w p question t = (Ok sqlQuery, t1) ->
     validator w p sqlQuery t1 = (Ok v, t2) ->
     isValid v = false ->
     exists message t', generate w p question t = (Err message, t')).
Proof.
  split.
  - intros sqlQuery t'. rewrite generate_gate.
    destruct (candidate w p question t) as [[s|e] t1]; [|discriminate].
    destruct (validator w p s t1) as [[v|e] t2] eqn:Hv; [|discriminate].
    destruct (isValid v) eqn:Hvalid; [|discriminate].
    intros [= -> <-]. exists t1, t2.
    assert (Hinv : v = valid /\
                   t2 = ClientRelease :: Log Info "SQL validation passed"
                          :: ClientQuery ("EXPLAIN " ++ sqlQuery)
                          :: beforeExplain t1).
    { destruct p; cbn [validator] in Hv;
        apply validateWith_valid_inv in Hv; tauto. }
    destruct Hinv as [-> Ht2].
    split; [reflexivity|]. split; [exact Hv|]. split; [|reflexivity].
    rewrite Ht2. right; right; left. reflexivity.
  - intros sqlQuery t1 v t2 Hc Hv Hinvalid.
    rewrite generate_gate, Hc, Hv, Hinvalid. eauto.
Qed.

Lemma returned_sql_was_validated_witness :
  exists t1 t2,
    candidate sampleWorld VertexAI "one" [] = (Ok "SELECT 1", t1) /\
    validator sampleWorld VertexAI "SELECT 1" t1 = (Ok valid, t2) /\
    In (ClientQuery ("EXPLAIN " ++ "SELECT 1")) t2 /\
    snd (generate sampleWorld VertexAI "one" []) = returned VertexAI t2.
Proof.
  apply (proj1 (returned_sql_was_validated sampleWorld VertexAI "one" [])
           "SELECT 1").
  reflexivity.
Defined.

(** ** Determinism of the pattern-matching path *)

(** The table list only shows in the message of the error. *)
Lemma generateSimpleQuery_tables question tables1 tables2 s1 s2 :
  Simple.generateSimpleQuery question tables1 = Ok s1 ->
  Simple.generateSimpleQuery question tables2 = Ok s2 ->
  s1 = s2.
Proof.
  unfold Simple.generateSimpleQuery.
  repeat match goal with
         | |- context [if ?c then _ else _] => destruct c
         end; congruence.
Qed.

Lemma simple_generate_inv db question t s t' :
  Simple.generateSqlFromQuestion db question t = (Ok s, t') ->
  exists tables, Simple.generateSimpleQuery question tables = Ok s.
Proof.
  unfold Simple.generateSqlFromQuestion.
  cbv [bind tryCatch logger ret throw lift].
  destruct (getTableSchema db _) as [[tables|e] t1]; [|discriminate].
  destruct (Simple.generateSimpleQuery question tables) as [s0|e] eqn:E;
    [|discriminate].
  destruct (Simple.validateSqlSyntax db _ _) as [[v|e] t2]; [|discriminate].
  destruct (isValid v); [|discriminate].
  intros [= <- <-]. eauto.
Qed.

Lemma sameOutcome_simple db question :
  stable db -> sameOutcome (Simple.generateSqlFromQuestion db question).
Proof.
  intros Hdb. unfold Simple.generateSqlFromQuestion, Simple.validateSqlSyntax.
  repeat first
    [ apply sameOutcome_getTableSchema; assumption
    | apply sameOutcome_validateWith; assumption
    | progress same_outcome ].
Qed.

(** C7.  Two calls of the pattern-matching generator with the same
    question that both return, return the same text, whatever the two
    databases answered; and against a database whose answers do not change
    the two calls have the same outcome altogether. *)
Theorem pattern_matching_deterministic (db1 db2 : Database)
  (question : string) (t1 t2 : trace) :
  (forall s1 s2,
     fst (Simple.generateSqlFromQuestion db1 question t1) = Ok s1 ->
     fst (Simple.generateSqlFromQuestion db2 question t2) = Ok s2 ->
     s1 = s2)
  /\
  (db1 = db2 -> stable db1 ->
   fst (Simple.generateSqlFromQuestion db1 question t1)
   = fst (Simple.generateSqlFromQuestion db2 question t2)).
Proof.
  split.
  - intros s1 s2 H1 H2.
    destruct (Simple.generateSqlFromQuestion db1 question t1) as [r1 t1'] eqn:E1.
    destruct (Simple.generateSqlFromQuestion db2 question t2) as [r2 t2'] eqn:E2.
    simpl in H1, H2; subst.
    apply simple_generate_inv in E1 as [tb1 G1], E2 as [tb2 G2].
    eapply generateSimpleQuery_tables; eassumption.
  - intros <- Hdb. now apply sameOutcome_simple.
Qed.

Lemma pattern_matching_deterministic_witness :
  fst (Simple.generateSqlFromQuestion productsDb "Show active users" [])
  = fst (Simple.generateSqlFromQuestion productsDb "Show active users"
           [Log Info "an earlier request"]).
Proof.
  apply (proj2 (pattern_matching_deterministic productsDb productsDb
                  "Show active users" [] [Log Info "an earlier request"])).
  - reflexivity.
  - split; reflexivity.
Defined.

(** ** The keyword screen *)

(** X2.  The screen of the pattern-matching and Gemini services finds a
    keyword exactly when one of the nine stands alone in the lower-cased text. *)
Lemma simple_screen_spec normalizedSql :
  Simple.foundForbiddenKeyword normalizedSql <> None <->
  exists keyword, In keyword forbiddenKeywords /\ standsAlone normalizedSql keyword.
Proof.
  unfold Simple.foundForbiddenKeyword, standsAlone. split.
  - destruct (find _ forbiddenKeywords) as [keyword|] eqn:E; [|congruence].
    intros _. apply find_some in E as [Hin H]. exists keyword. split; [easy|].
    apply orb_true_iff in H as [H|H].
    + left. now apply includes_contains.
    + right. apply startsWith_spec in H as [b ->]. exists b.
      now rewrite append_assoc.
  - intros (keyword & Hin & H) E.
    eapply find_none in E; [|exact Hin]. apply orb_false_iff in E as [E1 E2].
    destruct H as [H|[rest ->]].
    + apply includes_contains in H. exact (eq_true_false_abs _ H E1).
    + rewrite <- append_assoc, startsWith_app in E2. discriminate.
Qed.

(** X3.  The screen of the Vertex service finds a keyword exactly when one
    of the nine stands between two spaces in the lower-cased text. *)
Lemma vertex_screen_spec normalizedSql :
  Vertex.foundForbiddenKeyword normalizedSql <> None <->
  exists keyword,
    In keyword forbiddenKeywords /\
    contains normalizedSql (" " ++ keyword ++ " ").
Proof.
  unfold Vertex.foundForbiddenKeyword. split.
  - destruct (find _ forbiddenKeywords) as [keyword|] eqn:E; [|congruence].
    intros _. apply find_some in E as [Hin H]. exists keyword. split; [easy|].
    now apply includes_contains.
  - intros (keyword & Hin & H) E.
    eapply find_none in E; [|exact Hin].
    apply includes_contains in H. exact (eq_true_false_abs _ H E).
Qed.

(** The identifier updates does not stop any of the three screens. *)
Lemma updates_passes_the_screens :
  Simple.foundForbiddenKeyword (toLowerCase "SELECT * FROM updates") = None /\
  Gemini.foundForbiddenKeyword (toLowerCase "SELECT * FROM updates") = None /\
  Vertex.foundForbiddenKeyword (toLowerCase "SELECT * FROM updates") = None.
Proof. repeat split. Qed.

(** ** The tagged format: the loop, the two patterns, the outcome *)

Lemma removeAllFrom_length p s k :
  String.length (removeAllFrom k p s) <= String.length s - k.
Proof.
  revert k. induction s as [|c s IH]; intros k; simpl; [lia|].
  destruct k as [|k].
  - destruct (startsWith (String c s) p).
    + specialize (IH (String.length p - 1)). lia.
    + specialize (IH 0). simpl. lia.
  - apply IH.
Qed.

Lemma removeAll_length p s :
  String.length (removeAll p s) <= String.length s.
Proof. unfold removeAll. pose proof (removeAllFrom_length p s 0). lia. Qed.

Lemma removeAll_shorter p s :
  p <> "" ->
  includes s p = true ->
  String.length (removeAll p s) < String.length s.
Proof.
  intros Hp. unfold removeAll. induction s as [|c s IH]; intros H.
  - destruct p; [contradiction|discriminate].
  - cbn [includes] in H. cbn [removeAllFrom].
    destruct (startsWith (String c s) p).
    + pose proof (removeAllFrom_length p s (String.length p - 1)).
      simpl. lia.
    + simpl in H. apply IH in H. simpl. lia.
Qed.

(** The loop is over within the fuel it is given: no opening tag is left. *)
Lemma stripTags_done fuel s :
  String.length s <= fuel ->
  includes (Vertex.stripTags fuel s) Vertex.queryOpen = false.
Proof.
  revert s. induction fuel as [|fuel IH]; intros s Hlen.
  - destruct s; [reflexivity|simpl in Hlen; lia].
  - cbn [Vertex.stripTags].
    destruct (includes s Vertex.queryOpen) eqn:E; [|exact E].
    apply IH.
    pose proof (removeAll_shorter Vertex.queryOpen s ltac:(discriminate) E).
    pose proof (removeAll_length Vertex.queryClose
                  (removeAll Vertex.queryOpen s)).
    lia.
Qed.

Lemma stripTags_plain fuel s :
  includes s Vertex.queryOpen = false -> Vertex.stripTags fuel s = s.
Proof. intros H. destruct fuel; [reflexivity|]. cbn [Vertex.stripTags]. now rewrite H. Qed.

Lemma queryPairMatch_head r :
  startsWith r Vertex.queryOpen = true ->
  includes (drop (String.length Vertex.queryOpen) r) Vertex.queryClose = true ->
  Vertex.queryPairMatch r = true.
Proof. intros H1 H2. destruct r; cbn [Vertex.queryPairMatch]; now rewrite H1, H2. Qed.

Lemma queryPairMatch_spec response :
  Vertex.queryPairMatch response = true <-> hasQueryPair response.
Proof.
  unfold hasQueryPair. split.
  - induction response as [|x r IH]; cbn [Vertex.queryPairMatch]; intros H.
    + discriminate.
    + apply orb_true_iff in H as [H|H].
      * apply andb_true_iff in H as [H1 H2].
        apply startsWith_spec in H1 as [rest E]. rewrite E in H2 |- *.
        rewrite drop_app in H2. apply includes_spec in H2 as (b & c & ->).
        now exists "", b, c.
      * destruct (IH H) as (a & b & c & ->). now exists (String x a), b, c.
  - intros (a & b & c & ->). induction a as [|x a IH].
    + change ("" ++ ?s) with s. apply queryPairMatch_head.
      * apply startsWith_app.
      * rewrite drop_app. apply includes_spec. now exists b, c.
    + change (String x a ++ ?s) with (String x (a ++ s)).
      cbn [Vertex.queryPairMatch]. rewrite IH. apply orb_true_r.
Qed.

Lemma extractQuery_without_pair response :
  ~ hasQueryPair response -> Vertex.extractQuery response = "".
Proof.
  intros H. unfold Vertex.extractQuery.
  destruct (Vertex.queryPairMatch response) eqn:E; [|reflexivity].
  apply queryPairMatch_spec in E. contradiction.
Qed.

Lemma explanationMatch_none response :
  Vertex.explanationMatch response = None <->
  ~ contains response Vertex.explanationOpen.
Proof.
  rewrite <- includes_not_contains.
  induction response as [|x r IH]; cbn [Vertex.explanationMatch includes].
  - split; intros _; reflexivity.
  - destruct (startsWith (String x r) Vertex.explanationOpen); simpl.
    + split; discriminate.
    + exact IH.
Qed.

(** The group of the explanation pattern is the text after the first
    opening tag. *)
Lemma explanationMatch_first pre text :
  (forall a b,
     pre ++ Vertex.explanationOpen ++ text = a ++ Vertex.explanationOpen ++ b ->
     String.length pre <= String.length a) ->
  Vertex.explanationMatch (pre ++ Vertex.explanationOpen ++ text) = Some text.
Proof.
  induction pre as [|x pre IH]; intros Hfirst.
  - change ("" ++ ?s) with s.
    assert (H : startsWith (Vertex.explanationOpen ++ text)
                  Vertex.explanationOpen = true) by apply startsWith_app.
    destruct (Vertex.explanationOpen ++ text) eqn:E; [discriminate|].
    cbn [Vertex.explanationMatch]. rewrite H, <- E. now rewrite drop_app.
  - change (String x pre ++ ?s) with (String x (pre ++ s)).
    cbn [Vertex.explanationMatch].
    destruct (startsWith _ Vertex.explanationOpen) eqn:E.
    + apply startsWith_spec in E as [b E].
      specialize (Hfirst "" b E). simpl in Hfirst. lia.
    + apply IH. intros a b E'.
      specialize (Hfirst (String x a) b (f_equal (String x) E')).
      simpl in Hfirst. lia.
Qed.

Lemma parseAndValidateResponse_run db response t :
  Vertex.parseAndValidateResponse db response t =
  let t0 := Log Debug "Starting response parsing and validation" :: t in
  let sqlQuery := Vertex.extractQuery response in
  if truthy sqlQuery then
    match Vertex.validateSqlSyntax db sqlQuery
            (Log Debug "Extracted SQL query from LLM response" :: t0) with
    | (Ok v, t2) =>
        if isValid v
        then (Ok sqlQuery,
              Log Info "SQL parsing and validation completed successfully" :: t2)
        else (Err ("Generated SQL is invalid: " ++ errorText v),
              Log Error "Generated SQL failed validation" :: t2)
    | (Err e, t2) => (Err e, t2)
    end
  else Vertex.rejectResponse response t0.
Proof.
  unfold Vertex.parseAndValidateResponse.
  cbv [bind logger ret throw].
  destruct (truthy (Vertex.extractQuery response)); cbn [negb]; [|reflexivity].
  destruct (Vertex.validateSqlSyntax db _ _) as [[v|e] t2]; [|reflexivity].
  now destruct (isValid v).
Qed.

(** C2.  At the text "UPDATE users SET x=1" the screens of the
    pattern-matching and Gemini services find the keyword update, but the
    screen of the Vertex service, which has no test of the start of the
    text, finds nothing: with a database that explains the statement its
    validator answers isValid: true, and the Vertex parser returns the
    statement when the model wraps it in query tags. *)
Theorem vertex_screen_misses_leading_keyword (db : Database) :
  (forall t, pool_connect db t = None) ->
  (forall t, isOk (client_query db t "EXPLAIN UPDATE users SET x=1") = true) ->
  Simple.foundForbiddenKeyword (toLowerCase "UPDATE users SET x=1")
  = Some "update" /\
  Gemini.foundForbiddenKeyword (toLowerCase "UPDATE users SET x=1")
  = Some "update" /\
  Vertex.foundForbiddenKeyword (toLowerCase "UPDATE users SET x=1") = None /\
  (forall t,
     fst (Simple.validateSqlSyntax db "UPDATE users SET x=1" t) = Ok forbidden) /\
  (forall t,
     fst (Vertex.validateSqlSyntax db "UPDATE users SET x=1" t) = Ok valid) /\
  (forall t,
     fst (Vertex.parseAndValidateResponse db
            "<@query@>UPDATE users SET x=1</@query@>" t)
     = Ok "UPDATE users SET x=1").
Proof.
  intros Hconn Hexplain.
  assert (Hs : Simple.foundForbiddenKeyword (toLowerCase "UPDATE users SET x=1")
               = Some "update") by reflexivity.
  assert (Hv : Vertex.foundForbiddenKeyword (toLowerCase "UPDATE users SET x=1")
               = None) by reflexivity.
  assert (Hvalid : forall t,
            Vertex.validateSqlSyntax db "UPDATE users SET x=1" t
            = (Ok valid,
               ClientRelease :: Log Info "SQL validation passed"
                 :: ClientQuery "EXPLAIN UPDATE users SET x=1"
                 :: beforeExplain t)).
  { intros t. unfold Vertex.validateSqlSyntax.
    rewrite validateWith_run, Hv, Hconn.
    change ("EXPLAIN " ++ "UPDATE users SET x=1")
      with "EXPLAIN UPDATE users SET x=1".
    specialize (Hexplain (beforeExplain t)).
    now destruct (client_query db (beforeExplain t)
                    "EXPLAIN UPDATE users SET x=1"). }
  split; [exact Hs|]. split; [exact Hs|]. split; [exact Hv|].
  split; [|split].
  - intros t. unfold Simple.validateSqlSyntax. now rewrite validateWith_run, Hs.
  - intros t. now rewrite Hvalid.
  - intros t. rewrite parseAndValidateResponse_run.
    change (Vertex.extractQuery "<@query@>UPDATE users SET x=1</@query@>")
      with "UPDATE users SET x=1".
    cbv zeta. cbn [truthy]. now rewrite Hvalid.
Qed.

Lemma vertex_screen_misses_leading_keyword_witness :
  fst (Vertex.parseAndValidateResponse productsDb
         "<@query@>UPDATE users SET x=1</@query@>" [])
  = Ok "UPDATE users SET x=1".
Proof.
  refine (proj2 (proj2 (proj2 (proj2 (proj2
            (vertex_screen_misses_leading_keyword productsDb _ _))))) []).
  - reflexivity.
  - reflexivity.
Defined.

(** C4.  A response with no complete pair of query tags makes
    parseAndValidateResponse throw, having touched nothing but the log.
    When the response has an explanation tag, the message is
    "LLM explanation: " followed by the trimmed text after the first such
    tag (when that text is not empty); when it has no explanation tag, the
    message is "Invalid response format from LLM or empty query.". *)
Theorem response_without_query_fails (db : Database) (response : string)
  (t : trace) :
  ~ hasQueryPair response ->
  (exists message logs,
     Vertex.parseAndValidateResponse db response t
     = (Err message, (logs ++ t)%list)
     /\ forallb isLog logs = true)
  /\
  (forall pre text,
     response = pre ++ Vertex.explanationOpen ++ text ->
     (forall a b,
        response = a ++ Vertex.explanationOpen ++ b ->
        String.length pre <= String.length a) ->
     text <> "" ->
     fst (Vertex.parseAndValidateResponse db response t)
     = Err ("LLM explanation: " ++ trim text))
  /\
  (~ contains response Vertex.explanationOpen ->
   fst (Vertex.parseAndValidateResponse db response t)
   = Err "Invalid response format from LLM or empty query.").
Proof.
  intros Hpair.
  rewrite parseAndValidateResponse_run, (extractQuery_without_pair _ Hpair).
  cbv zeta. cbn [truthy]. rewrite rejectResponse_run.
  split; [|split].
  - destruct (Vertex.explanationMatch response) as [[|c rest]|].
    + eexists _, [_; _; _]. split; reflexivity.
    + eexists _, [_; _; _]. split; reflexivity.
    + eexists _, [_; _; _]. split; reflexivity.
  - intros pre text -> Hfirst Htext.
    rewrite (explanationMatch_first pre text Hfirst).
    destruct text; [contradiction|reflexivity].
  - intros Hnone. apply explanationMatch_none in Hnone. now rewrite Hnone.
Qed.

Lemma response_without_query_fails_witness :
  fst (Vertex.parseAndValidateResponse productsDb
         "<@explanation@>missing table X" [])
  = Err ("LLM explanation: " ++ trim "missing table X").
Proof.
  refine (proj1 (proj2 (response_without_query_fails productsDb
                          "<@explanation@>missing table X" [] _))
            "" "missing table X" _ _ _).
  - intros H. apply queryPairMatch_spec in H. discriminate.
  - reflexivity.
  - intros a b _. simpl. lia.
  - discriminate.
Defined.

(** The same at the text of the specification: the message carries
    exactly the explanation. *)
Lemma missing_table_explanation db t :
  fst (Vertex.parseAndValidateResponse db "<@explanation@>missing table X" t)
  = Err "LLM explanation: missing table X".
Proof.
  rewrite parseAndValidateResponse_run. cbv zeta.
  change (Vertex.extractQuery "<@explanation@>missing table X") with "".
  cbn [truthy]. rewrite rejectResponse_run. reflexivity.
Qed.

(** C3, as stated, fails: the closing tag of the code is [queryClose], the
    response of the specification has no complete pair, and the parser
    throws with the rest of the explanation section as its message. *)
Lemma spec_response_is_rejected :
  Vertex.extractQuery specResponse = "" /\
  fst (Vertex.parseAndValidateResponse productsDb specResponse [])
  = Err "LLM explanation: </@explanation@>".
Proof. split; reflexivity. Qed.

(** *** A response that is one tagged query *)

Lemma includes_cons_false c s p :
  includes (String c s) p = false ->
  startsWith (String c s) p = false /\ includes s p = false.
Proof. cbn [includes]. apply orb_false_iff. Qed.

Lemma removeOpen_body body :
  includes body "<@" = false ->
  removeAll Vertex.queryOpen (body ++ Vertex.queryClose)
  = body ++ Vertex.queryClose.
Proof.
  unfold removeAll. induction body as [|c body IH]; intros H.
  - reflexivity.
  - apply includes_cons_false in H as [Hc Hb].
    change (String c body ++ ?s) with (String c (body ++ s)).
    cbn [removeAllFrom].
    assert (E : startsWith (String c (body ++ Vertex.queryClose))
                  Vertex.queryOpen = false).
    { simpl in Hc |- *. destruct (Ascii.eqb c "<"); [|reflexivity].
      destruct body as [|d body]; [reflexivity|].
      simpl in Hc |- *. destruct (Ascii.eqb d "@"); [discriminate|reflexivity]. }
    rewrite E. f_equal. now apply IH.
Qed.

Lemma removeClose_body body :
  includes body "</" = false ->
  removeAll Vertex.queryClose (body ++ Vertex.queryClose) = body.
Proof.
  unfold removeAll. induction body as [|c body IH]; intros H.
  - reflexivity.
  - apply includes_cons_false in H as [Hc Hb].
    change (String c body ++ ?s) with (String c (body ++ s)).
    cbn [removeAllFrom].
    assert (E : startsWith (String c (body ++ Vertex.queryClose))
                  Vertex.queryClose = false).
    { simpl in Hc |- *. destruct (Ascii.eqb c "<"); [|reflexivity].
      destruct body as [|d body]; [reflexivity|].
      simpl in Hc |- *. destruct (Ascii.eqb d "/"); [discriminate|reflexivity]. }
    rewrite E. f_equal. now apply IH.
Qed.

Lemma includes_longer s p q :
  includes s p = false -> includes s (p ++ q) = false.
Proof.
  intros H. apply includes_not_contains. apply includes_not_contains in H.
  intros (a & b & ->). apply H. exists a, (q ++ b). now rewrite append_assoc.
Qed.

Lemma extractQuery_tagged body :
  ~ contains body "<@" -> ~ contains body "</" ->
  Vertex.extractQuery (Vertex.queryOpen ++ body ++ Vertex.queryClose) = body.
Proof.
  intros H1 H2.
  apply includes_not_contains in H1, H2.
  unfold Vertex.extractQuery.
  assert (Hpair : Vertex.queryPairMatch
                    (Vertex.queryOpen ++ body ++ Vertex.queryClose) = true).
  { apply queryPairMatch_spec. exists "", body, "".
    now rewrite append_empty_r. }
  rewrite Hpair.
  change (String.length (Vertex.queryOpen ++ body ++ Vertex.queryClose))
    with (S (String.length ("@query@>" ++ body ++ Vertex.queryClose))).
  cbn [Vertex.stripTags].
  rewrite (startsWith_includes _ _ (startsWith_app Vertex.queryOpen _)).
  change (removeAll Vertex.queryOpen
            (Vertex.queryOpen ++ body ++ Vertex.queryClose))
    with (removeAll Vertex.queryOpen (body ++ Vertex.queryClose)).
  rewrite (removeOpen_body _ H1), (removeClose_body _ H2).
  apply stripTags_plain.
  apply (includes_longer body "<@" "query@>" H1).
Qed.

(** C3, amended.  For a response that is the opening tag, a non-empty
    body with no "<@" and no "</" in it, and the closing tag [queryClose],
    the text extracted is exactly the body; it is the text handed to the
    validator, and it is returned when the validator answers
    isValid: true. *)
Theorem tagged_query_is_extracted (db : Database) (body : string) (t : trace) :
  body <> "" ->
  ~ contains body "<@" ->
  ~ contains body "</" ->
  Vertex.extractQuery (Vertex.queryOpen ++ body ++ Vertex.queryClose) = body
  /\
  (forall v t2,
     Vertex.validateSqlSyntax db body
       (Log Debug "Extracted SQL query from LLM response"
          :: Log Debug "Starting response parsing and validation" :: t)
     = (Ok v, t2) ->
     isValid v = true ->
     Vertex.parseAndValidateResponse db
       (Vertex.queryOpen ++ body ++ Vertex.queryClose) t
     = (Ok body,
        Log Info "SQL parsing and validation completed successfully" :: t2)).
Proof.
  intros Hne H1 H2.
  pose proof (extractQuery_tagged body H1 H2) as E.
  split; [exact E|].
  intros v t2 Hv Hvalid.
  rewrite parseAndValidateResponse_run, E. cbv zeta.
  destruct body; [contradiction|]. cbn [truthy].
  now rewrite Hv, Hvalid.
Qed.

Lemma tagged_query_is_extracted_witness :
  Vertex.extractQuery "<@query@>SELECT 1</@query@>" = "SELECT 1".
Proof.
  refine (proj1 (tagged_query_is_extracted productsDb "SELECT 1" [] _ _ _)).
  - discriminate.
  - apply includes_not_contains. reflexivity.
  - apply includes_not_contains. reflexivity.
Defined.

(** ** The fenced format *)

(** Fences, comment lines and prose lines go; the statement stays. *)
Example cleanSqlResponse_fenced :
  Gemini.cleanSqlResponse
    ("```SQL" ++ LF ++ "-- the rows" ++ LF ++ "Here you go:" ++ LF
     ++ "SELECT 1" ++ LF ++ "  FROM t" ++ LF ++ "```" ++ LF)
  = "SELECT 1" ++ LF ++ "  FROM t".
Proof. reflexivity. Qed.

Example cleanSqlResponse_prose :
  Gemini.cleanSqlResponse
    ("Here is the query you asked for:" ++ LF ++ "-- nothing else") = "".
Proof. reflexivity. Qed.

(** C5.  The Gemini generator has no test for an empty text: when the
    cleaned response is empty, the validator is called with the empty
    string, the database receives "EXPLAIN " and, when it explains that,
    the generator returns the empty string. *)
Theorem empty_candidate_reaches_validator {Embedding Metadata : Type}
  (w : World Embedding Metadata) (question : string) (t t1 : trace) :
  candidate w GeminiAI question t = (Ok "", t1) ->
  pool_connect (database w) (startValidation t1) = None ->
  In (ClientQuery "EXPLAIN ") (snd (generate w GeminiAI question t)) /\
  (isOk (client_query (database w) (beforeExplain t1) "EXPLAIN ") = true ->
   fst (generate w GeminiAI question t) = Ok "").
Proof.
  intros Hc Hconn. rewrite generate_gate, Hc.
  cbn [validator]. unfold Gemini.validateSqlSyntax.
  rewrite validateWith_run.
  change (Gemini.foundForbiddenKeyword (toLowerCase "")) with (@None string).
  rewrite Hconn. change ("EXPLAIN " ++ "") with "EXPLAIN ".
  destruct (client_query (database w) (beforeExplain t1) "EXPLAIN ");
    cbn -[beforeExplain]; split; try tauto; discriminate.
Qed.

Lemma empty_candidate_reaches_validator_witness :
  In (ClientQuery "EXPLAIN ")
     (snd (generate proseWorld GeminiAI "Show all users" [])) /\
  (isOk (client_query (database proseWorld)
           (beforeExplain (snd (candidate proseWorld GeminiAI "Show all users" [])))
           "EXPLAIN ") = true ->
   fst (generate proseWorld GeminiAI "Show all users" []) = Ok "").
Proof.
  apply (empty_candidate_reaches_validator proseWorld "Show all users" []).
  - reflexivity.
  - reflexivity.
Defined.

(** ** The route *)

(** C8.  For a falsy question (a missing one, null, false, zero, the empty
    string) the handler answers 400 with the error "Question is
    required." after two log lines and nothing else: whatever the
    generator is, it is not called. *)
Theorem empty_question_is_rejected (generateSqlFromQuestion : string -> M string)
  (question : Api.JsValue) (t : trace) :
  Api.truthyValue question = false ->
  Api.generate_sql generateSqlFromQuestion question t
  = (Ok {| Api.status := 400;
           Api.json := Api.ErrorBody "Question is required." |},
     Log Warn "SQL generation request missing question parameter"
       :: Log Info "SQL generation request received" :: t).
Proof.
  intros H. unfold Api.generate_sql. rewrite H. reflexivity.
Qed.

Lemma empty_question_is_rejected_witness :
  Api.router productsDb (gemini sampleWorld) (Api.Str "") []
  = (Ok {| Api.status := 400;
           Api.json := Api.ErrorBody "Question is required." |},
     [Log Warn "SQL generation request missing question parameter";
      Log Info "SQL generation request received"]).
Proof.
  apply (empty_question_is_rejected
           (Gemini.generateSqlFromQuestion productsDb (gemini sampleWorld))
           (Api.Str "") []).
  reflexivity.
Defined.

(** ** The schema inspector *)

Lemma getOwn_setOwn o key v key' :
  getOwn (setOwn o key v) key'
  = if String.eqb key key' then Some v else getOwn o key'.
Proof.
  induction o as [|[k0 v0] o IH]; simpl.
  - reflexivity.
  - destruct (String.eqb k0 key) eqn:E0; simpl.
    + apply String.eqb_eq in E0; subst k0.
      now destruct (String.eqb key key').
    + rewrite IH. destruct (String.eqb k0 key') eqn:E1; [|reflexivity].
      apply String.eqb_eq in E1; subst k0. now rewrite String.eqb_sym, E0.
Qed.

Lemma groupRow_inherited o r :
  plainKeys o -> inherited (table_name r) = true ->
  groupRow o r = Err pushError.
Proof.
  intros Ho Hr. unfold groupRow, hasTruthy.
  destruct (getOwn o (table_name r)) as [v|] eqn:E.
  - apply Ho in E. congruence.
  - rewrite Hr. cbn [negb]. now rewrite E.
Qed.

(** What the callback does with a row whose table name is not inherited:
    the entry of that table, made on its first row, gets the column of the
    row at the end of its columns. *)
Lemma groupRow_plain o r :
  inherited (table_name r) = false ->
  groupRow o r =
  Ok (match getOwn o (table_name r) with
      | Some entry =>
          setOwn o (table_name r)
            {| Table.name := Table.name entry;
               Table.columns := (Table.columns entry ++ [columnOfRow r])%list |}
      | None =>
          setOwn (setOwn o (table_name r)
                    {| Table.name := table_name r; Table.columns := [] |})
            (table_name r)
            {| Table.name := table_name r;
               Table.columns := [columnOfRow r] |}
      end).
Proof.
  intros Hr. unfold groupRow, hasTruthy.
  destruct (getOwn o (table_name r)) as [v|] eqn:E; cbn [negb].
  - now rewrite E.
  - rewrite Hr. cbn [negb]. rewrite getOwn_setOwn, String.eqb_refl.
    reflexivity.
Qed.

Lemma groupRow_plainKeys o r o' :
  plainKeys o -> groupRow o r = Ok o' -> plainKeys o'.
Proof.
  intros Ho H.
  destruct (inherited (table_name r)) eqn:Hr.
  - rewrite (groupRow_inherited o r Ho Hr) in H. discriminate.
  - rewrite (groupRow_plain o r Hr) in H. injection H as <-.
    intros key v. destruct (getOwn o (table_name r)) as [entry|];
      rewrite !getOwn_setOwn;
      (destruct (String.eqb (table_name r) key) eqn:E;
       [apply String.eqb_eq in E; subst key; intros _; exact Hr
       |apply Ho]).
Qed.

(** One row with an inherited table name is enough to make the whole
    grouping throw. *)
Lemma groupRows_inherited rows :
  forall o, plainKeys o ->
  (exists r, In r rows /\ inherited (table_name r) = true) ->
  groupRows o rows = Err pushError.
Proof.
  induction rows as [|r rows IH]; intros o Ho (r0 & Hin & Hr0).
  - destruct Hin.
  - cbn [groupRows].
    destruct (inherited (table_name r)) eqn:Hr.
    + now rewrite (groupRow_inherited o r Ho Hr).
    + destruct Hin as [->|Hin]; [congruence|].
      destruct (groupRow o r) as [o'|e] eqn:E.
      * apply IH; [eapply groupRow_plainKeys; eassumption|eauto].
      * rewrite (groupRow_plain o r Hr) in E. discriminate.
Qed.

Lemma plainKeys_empty : plainKeys [].
Proof. intros key v H. discriminate. Qed.

(** C9.  When the catalog lists a table whose name is a property of
    Object.prototype (constructor, toString, ...), the read of
    tables[table_name] finds the inherited property, no entry is made, and
    getTableSchema throws a TypeError instead of returning the entries. *)
Theorem inherited_table_name_breaks_schema (db : Database) (t : trace)
  (rows : list Row) :
  pool_connect db t = None ->
  client_query db (PoolConnect :: t) catalogQuery = Ok rows ->
  (exists r, In r rows /\ inherited (table_name r) = true) ->
  getTableSchema db t = (Err pushError, traceAfterSchema t).
Proof.
  intros Hconn Hrows Hin.
  rewrite getTableSchema_run, Hconn, Hrows.
  now rewrite (groupRows_inherited rows [] plainKeys_empty Hin).
Qed.

Lemma inherited_table_name_breaks_schema_witness :
  getTableSchema constructorDb []
  = (Err "Cannot read properties of undefined (reading 'push')",
     traceAfterSchema []).
Proof.
  apply (inherited_table_name_breaks_schema constructorDb []
           [constructorRow; productsRow]).
  - reflexivity.
  - reflexivity.
  - exists constructorRow. split; [left|]; reflexivity.
Defined.

(** *** Grouping, for table names that are not inherited *)

Lemma rowsOf_unlisted rows key : listed rows key = false -> rowsOf rows key = [].
Proof.
  unfold listed, rowsOf. induction rows as [|r rows IH]; simpl; [easy|].
  intros H. apply orb_false_iff in H as [-> H]. auto.
Qed.

Lemma getOwn_None_keys o key :
  getOwn o key = None -> ~ In key (map fst o).
Proof.
  induction o as [|[k0 v0] o IH]; simpl; [tauto|].
  destruct (String.eqb k0 key) eqn:E; [discriminate|].
  apply String.eqb_neq in E. intros H [H1|H1]; [congruence|]. now apply IH.
Qed.

Lemma getOwn_In o key v :
  NoDup (map fst o) -> (In (key, v) o <-> getOwn o key = Some v).
Proof.
  induction o as [|[k0 v0] o IH]; simpl; intros Hnd.
  - split; [tauto|discriminate].
  - inversion Hnd as [|? ? Hk0 Hnd']; subst.
    destruct (String.eqb k0 key) eqn:E.
    + apply String.eqb_eq in E; subst k0. split.
      * intros [[= ->]|H]; [reflexivity|].
        destruct Hk0. change key with (fst (key, v)). now apply in_map.
      * intros [= ->]. now left.
    + apply String.eqb_neq in E. rewrite <- (IH Hnd'). split.
      * intros [[= ? ?]|H]; [congruence|exact H].
      * now right.
Qed.

Lemma setOwn_keys o key v :
  map fst (setOwn o key v)
  = match getOwn o key with
    | Some _ => map fst o
    | None => (map fst o ++ [key])%list
    end.
Proof.
  induction o as [|[k0 v0] o IH]; simpl; [reflexivity|].
  destruct (String.eqb k0 key); simpl; [reflexivity|].
  rewrite IH. now destruct (getOwn o key).
Qed.

Lemma setOwn_NoDup o key v :
  NoDup (map fst o) -> NoDup (map fst (setOwn o key v)).
Proof.
  intros Hnd. rewrite setOwn_keys.
  destruct (getOwn o key) eqn:E; [exact Hnd|].
  apply getOwn_None_keys in E.
  rewrite <- (rev_involutive (map fst o ++ [key])). apply NoDup_rev.
  rewrite rev_app_distr. simpl. constructor.
  - now rewrite <- in_rev.
  - now apply NoDup_rev.
Qed.

Lemma groupRow_groups done o r :
  groups done o -> inherited (table_name r) = false ->
  exists o', groupRow o r = Ok o' /\ groups (done ++ [r])%list o'.
Proof.
  intros [Hget Hnd] Hr. rewrite (groupRow_plain o r Hr).
  eexists; split; [reflexivity|].
  assert (Hl : forall key,
            listed (done ++ [r]) key
            = listed done key || String.eqb (table_name r) key).
  { intros key. unfold listed. rewrite existsb_app. simpl.
    now rewrite orb_false_r. }
  assert (Hrows : forall key,
            rowsOf (done ++ [r]) key
            = (rowsOf done key
               ++ if String.eqb (table_name r) key then [r] else [])%list).
  { intros key. unfold rowsOf. rewrite filter_app. simpl.
    now destruct (String.eqb (table_name r) key). }
  split.
  - intros key. rewrite Hl. unfold entryOf. rewrite Hrows.
    pose proof (Hget (table_name r)) as H0.
    destruct (listed done (table_name r)) eqn:Hdone; rewrite H0.
    + rewrite getOwn_setOwn.
      destruct (String.eqb (table_name r) key) eqn:E.
      * apply String.eqb_eq in E; subst key. rewrite Hdone. simpl.
        now rewrite map_app.
      * rewrite Hget, orb_false_r, app_nil_r. reflexivity.
    + rewrite !getOwn_setOwn.
      destruct (String.eqb (table_name r) key) eqn:E.
      * apply String.eqb_eq in E; subst key. rewrite Hdone. simpl.
        now rewrite (rowsOf_unlisted done _ Hdone).
      * rewrite Hget, orb_false_r, app_nil_r. reflexivity.
  - destruct (getOwn o (table_name r)); repeat apply setOwn_NoDup; exact Hnd.
Qed.

Lemma groupRows_groups rows :
  forall done o,
    groups done o ->
    (forall r, In r rows -> inherited (table_name r) = false) ->
    exists o', groupRows o rows = Ok o' /\ groups (done ++ rows)%list o'.
Proof.
  induction rows as [|r rows IH]; intros done o Ho Hplain.
  - exists o. now rewrite app_nil_r.
  - destruct (groupRow_groups done o r Ho (Hplain r (or_introl eq_refl)))
      as (o1 & E1 & H1).
    destruct (IH (done ++ [r])%list o1 H1) as (o' & E' & H').
    { intros r' Hin. apply Hplain. now right. }
    exists o'. cbn [groupRows]. rewrite E1, E'. split; [reflexivity|].
    now rewrite <- app_assoc in H'.
Qed.

Lemma insertIndexed_perm n v l :
  Permutation (insertIndexed n v l) ((n, v) :: l).
Proof.
  induction l as [|[n' v'] l IH]; simpl; [reflexivity|].
  destruct (n <? n')%N; [reflexivity|].
  rewrite IH. apply perm_swap.
Qed.

(** [Object.values] reorders the entries and loses none. *)
Lemma Object_values_perm o : Permutation (Object_values o) (map snd o).
Proof.
  unfold Object_values, indexedValues, namedValues.
  induction o as [|[key v] o IH]; simpl; [reflexivity|].
  destruct (arrayIndex key) as [n|]; simpl.
  - rewrite insertIndexed_perm. simpl. now apply perm_skip.
  - rewrite <- Permutation_middle. now apply perm_skip.
Qed.

(** X1.  With no inherited table name in the catalog answer, getTableSchema
    returns one entry per table name of the answer, and the entry of a
    table holds the columns of its rows in the order of the answer. *)
Lemma getTableSchema_groups (db : Database) (t : trace) (rows : list Row) :
  pool_connect db t = None ->
  client_query db (PoolConnect :: t) catalogQuery = Ok rows ->
  (forall r, In r rows -> inherited (table_name r) = false) ->
  exists tables,
    getTableSchema db t = (Ok tables, traceAfterSchema t) /\
    NoDup (map Table.name tables) /\
    (forall entry,
       In entry tables <->
       exists key, listed rows key = true /\ entry = entryOf rows key).
Proof.
  intros Hconn Hrows Hplain.
  destruct (groupRows_groups rows [] [])
    as (o & E & Hget & Hnd); [split; [reflexivity|constructor]|exact Hplain|].
  simpl in Hget.
  exists (Object_values o).
  rewrite getTableSchema_run, Hconn, Hrows, E.
  assert (Hentry : forall key v, In (key, v) o ->
                     listed rows key = true /\ v = entryOf rows key).
  { intros key v H. apply (getOwn_In o key v Hnd) in H.
    rewrite Hget in H. destruct (listed rows key); [|discriminate].
    now injection H as <-. }
  split; [reflexivity|]. split.
  - apply (Permutation_NoDup
             (Permutation_sym (Permutation_map Table.name (Object_values_perm o)))).
    rewrite map_map.
    replace (map (fun x => Table.name (snd x)) o) with (map fst o); [exact Hnd|].
    apply map_ext_in. intros [key v] H. apply Hentry in H as [_ ->].
    reflexivity.
  - intros entry. split.
    + intros H. apply (Permutation_in _ (Object_values_perm o)) in H.
      apply in_map_iff in H as ([key v] & <- & H).
      exists key. now apply Hentry.
    + intros (key & Hl & ->).
      apply (Permutation_in _ (Permutation_sym (Object_values_perm o))).
      apply in_map_iff. exists (key, entryOf rows key). split; [reflexivity|].
      apply (getOwn_In o key _ Hnd). now rewrite Hget, Hl.
Qed.

Lemma getTableSchema_groups_witness :
  exists tables,
    getTableSchema productsDb [] = (Ok tables, traceAfterSchema []) /\
    NoDup (map Table.name tables) /\
    (forall entry,
       In entry tables <->
       exists key,
         listed [productsRow] key = true /\ entry = entryOf [productsRow] key).
Proof.
  apply (getTableSchema_groups productsDb [] [productsRow]).
  - reflexivity.
  - reflexivity.
  - intros r [<-|[]]. reflexivity.
Defined.

(** ** More about the loop and the patterns *)

(** X5.  The loop was given enough fuel: rounds beyond the length of the
    response change nothing, and no opening tag is left at the end. *)
Lemma stripTags_enough_fuel (response : string) (more : nat) :
  Vertex.stripTags (String.length response + more) response
  = Vertex.stripTags (String.length response) response
  /\ includes (Vertex.stripTags (String.length response) response)
       Vertex.queryOpen = false.
Proof.
  split; [|now apply stripTags_done].
  assert (H : forall fuel s, String.length s <= fuel ->
               Vertex.stripTags (fuel + more) s = Vertex.stripTags fuel s).
  { induction fuel as [|fuel IH]; intros s Hlen.
    - destruct s; [|simpl in Hlen; lia].
      cbn [Nat.add]. now rewrite (stripTags_plain more "").
    - cbn [Nat.add Vertex.stripTags].
      destruct (includes s Vertex.queryOpen) eqn:E; [|reflexivity].
      apply IH.
      pose proof (removeAll_shorter Vertex.queryOpen s ltac:(discriminate) E).
      pose proof (removeAll_length Vertex.queryClose
                    (removeAll Vertex.queryOpen s)).
      lia. }
  now apply H.
Qed.

Lemma includes_infix s a p b :
  includes s p = false -> includes s (a ++ p ++ b) = false.
Proof.
  intros H. apply includes_not_contains. apply includes_not_contains in H.
  intros (x & y & ->). apply H. exists (x ++ a), (b ++ y).
  now rewrite !append_assoc.
Qed.

(** X6.  Three branches of generateSimpleQuery cannot be reached: their
    patterns contain "orders" or "products", which the listing branches
    above them have already taken.  The texts [ordersByUser],
    [topProducts] and [recentOrders] are never the result. *)
Lemma join_branches_unreachable (question : string) (tables : list Table.t)
  (sql : string) :
  Simple.generateSimpleQuery question tables = Ok sql ->
  sql <> Simple.ordersByUser /\
  sql <> Simple.topProducts /\
  (forall limit, sql <> Simple.recentOrders limit).
Proof.
  unfold Simple.generateSimpleQuery.
  set (lq := toLowerCase question).
  assert (Ho : includes lq "orders" = false ->
               includes lq "orders by user" = false /\
               includes lq "user orders" = false /\
               includes lq "recent orders" = false).
  { intros H. repeat split.
    - apply (includes_infix lq "" "orders" " by user" H).
    - apply (includes_infix lq "user " "orders" "" H).
    - apply (includes_infix lq "recent " "orders" "" H). }
  assert (Hp : includes lq "products" = false ->
               includes lq "top products" = false /\
               includes lq "popular products" = false).
  { intros H. split.
    - apply (includes_infix lq "top " "products" "" H).
    - apply (includes_infix lq "popular " "products" "" H). }
  destruct (includes lq "orders") eqn:Eo;
    [|destruct (Ho eq_refl) as (H1 & H2 & H3); rewrite ?H1, ?H2, ?H3];
  (destruct (includes lq "products") eqn:Ep;
    [|destruct (Hp eq_refl) as (H4 & H5); rewrite ?H4, ?H5]);
  cbn [orb];
  repeat match goal with
         | |- context [if ?c then _ else _] => destruct c
         end;
  intros [= <-];
  unfold Simple.ordersByUser, Simple.topProducts, Simple.recentOrders,
    Simple.productsByCategory;
  repeat split; try intros limit; discriminate.
Qed.

Lemma join_branches_unreachable_witness :
  "SELECT * FROM orders LIMIT 100" <> Simple.ordersByUser /\
  "SELECT * FROM orders LIMIT 100" <> Simple.topProducts /\
  (forall limit, "SELECT * FROM orders LIMIT 100" <> Simple.recentOrders limit).
Proof.
  apply (join_branches_unreachable "Recent orders in last 7 days" []).
  reflexivity.
Defined.

(** ** What a run adds to the trace *)

Section EmitsOnly.

Variable allowed : event -> bool.
Hypothesis allowed_Log : forall l message, allowed (Log l message) = true.

Context {A B : Type}.

Lemma emitsOnly_ret (a : A) : emitsOnly allowed (ret a).
Proof. intros t. now exists []. Qed.

Lemma emitsOnly_throw e : emitsOnly allowed (@throw A e).
Proof. intros t. now exists []. Qed.

Lemma emitsOnly_lift (r : Result A) : emitsOnly allowed (lift r).
Proof. intros t. now exists []. Qed.

Lemma emitsOnly_bind (m : M A) (k : A -> M B) :
  emitsOnly allowed m -> (forall a, emitsOnly allowed (k a)) ->
  emitsOnly allowed (bind m k).
Proof.
  intros Hm Hk t. unfold bind. destruct (Hm t) as (new1 & E1 & H1).
  destruct (m t) as [[a|e] t1]; simpl in E1; subst t1.
  - destruct (Hk a (new1 ++ t)%list) as (new2 & E2 & H2).
    exists (new2 ++ new1)%list. rewrite E2, app_assoc, forallb_app, H1, H2.
    now split.
  - now exists new1.
Qed.

Lemma emitsOnly_tryCatch (m : M A) (h : string -> M A) :
  emitsOnly allowed m -> (forall e, emitsOnly allowed (h e)) ->
  emitsOnly allowed (tryCatch m h).
Proof.
  intros Hm Hh t. unfold tryCatch. destruct (Hm t) as (new1 & E1 & H1).
  destruct (m t) as [[a|e] t1]; simpl in E1; subst t1.
  - now exists new1.
  - destruct (Hh e (new1 ++ t)%list) as (new2 & E2 & H2).
    exists (new2 ++ new1)%list. rewrite E2, app_assoc, forallb_app, H1, H2.
    now split.
Qed.

Lemma emitsOnly_tryFinally (m : M A) (f : M unit) :
  emitsOnly allowed m -> emitsOnly allowed f ->
  emitsOnly allowed (tryFinally m f).
Proof.
  intros Hm Hf t. unfold tryFinally. destruct (Hm t) as (new1 & E1 & H1).
  destruct (m t) as [r t1]; simpl in E1; subst t1.
  destruct (Hf (new1 ++ t)%list) as (new2 & E2 & H2).
  exists (new2 ++ new1)%list.
  destruct (f (new1 ++ t)%list) as [[[]|e] t2]; simpl in E2 |- *; subst t2;
    rewrite app_assoc, forallb_app, H1, H2; now split.
Qed.

End EmitsOnly.

Lemma emitsOnly_logger allowed l message :
  allowed (Log l message) = true -> emitsOnly allowed (logger l message).
Proof. intros H t. exists [Log l message]. simpl. now rewrite H. Qed.

Lemma emitsOnly_connect allowed db :
  allowed PoolConnect = true -> emitsOnly allowed (connect db).
Proof.
  intros H t. exists [PoolConnect]. unfold connect.
  destruct (pool_connect db t); simpl; now rewrite H.
Qed.

Lemma emitsOnly_query allowed db text :
  allowed (ClientQuery text) = true -> emitsOnly allowed (query db text).
Proof. intros H t. exists [ClientQuery text]. simpl. now rewrite H. Qed.

Lemma emitsOnly_release allowed :
  allowed ClientRelease = true -> emitsOnly allowed release.
Proof. intros H t. exists [ClientRelease]. simpl. now rewrite H. Qed.

Lemma emitsOnly_callGemini allowed model prompt :
  allowed (GenerateContent prompt) = true ->
  emitsOnly allowed (Gemini.callGemini model prompt).
Proof. intros H t. exists [GenerateContent prompt]. simpl. now rewrite H. Qed.

Lemma emitsOnly_callEmbed allowed {E Md} (sv : Vertex.Services E Md) text :
  allowed (EmbedQuery text) = true ->
  emitsOnly allowed (Vertex.callEmbed sv text).
Proof. intros H t. exists [EmbedQuery text]. simpl. now rewrite H. Qed.

Lemma emitsOnly_callLlm allowed {E Md} (sv : Vertex.Services E Md) prompt :
  allowed (LlmInvoke prompt) = true ->
  emitsOnly allowed (Vertex.callLlm sv prompt).
Proof. intros H t. exists [LlmInvoke prompt]. simpl. now rewrite H. Qed.

Lemma emitsOnly_queryBothIndexes allowed {E Md} (sv : Vertex.Services E Md)
  vector :
  (forall index topK, allowed (IndexQuery index topK) = true) ->
  emitsOnly allowed (Vertex.queryBothIndexes sv vector).
Proof.
  intros H t.
  exists [IndexQuery (Vertex.PINECONE_QUERY_INDEX_NAME sv) 3;
          IndexQuery (Vertex.PINECONE_INDEX_NAME sv) 5].
  unfold Vertex.queryBothIndexes. cbv zeta.
  destruct (Vertex.indexQuery sv t _ 5 vector);
    try match goal with
        | |- context [Vertex.indexQuery sv ?t1 ?i 3 vector] =>
            destruct (Vertex.indexQuery sv t1 i 3 vector)
        end; simpl; rewrite !H; now split.
Qed.

(** Splits a goal [emitsOnly allowed m] along the structure of [m]; the
    side conditions on [allowed] are closed by computation. *)
Ltac emits_only :=
  repeat match goal with
    | |- forall _, _ => intro
    | |- emitsOnly _ (ret _) => apply emitsOnly_ret
    | |- emitsOnly _ (throw _) => apply emitsOnly_throw
    | |- emitsOnly _ (lift _) => apply emitsOnly_lift
    | |- emitsOnly _ (logger _ _) => apply emitsOnly_logger; reflexivity
    | |- emitsOnly _ release => apply emitsOnly_release; reflexivity
    | |- emitsOnly _ (connect _) => apply emitsOnly_connect; reflexivity
    | |- emitsOnly _ (query _ _) => apply emitsOnly_query; reflexivity
    | |- emitsOnly _ (Gemini.callGemini _ _) =>
        apply emitsOnly_callGemini; reflexivity
    | |- emitsOnly _ (Vertex.callEmbed _ _) =>
        apply emitsOnly_callEmbed; reflexivity
    | |- emitsOnly _ (Vertex.callLlm _ _) =>
        apply emitsOnly_callLlm; reflexivity
    | |- emitsOnly _ (Vertex.queryBothIndexes _ _) =>
        apply emitsOnly_queryBothIndexes; reflexivity
    | |- emitsOnly _ (tryFinally _ _) => apply emitsOnly_tryFinally
    | |- emitsOnly _ (tryCatch _ _) => apply emitsOnly_tryCatch
    | |- emitsOnly _ (bind _ _) => apply emitsOnly_bind
    | |- emitsOnly _ (if ?c then _ else _) => destruct c
    | |- emitsOnly _ (match ?c with _ => _ end) => destruct c
    | |- emitsOnly _ (let _ := _ in _) => cbv zeta
    end.

(** ** The discipline of the connection pool *)

Section KeepsPool.

Variable db : Database.

Context {A B : Type}.

Lemma keepsPool_ret n (a : A) : keepsPool db n (ret a).
Proof. intros t Hh Hd. now split. Qed.

Lemma keepsPool_throw n e : keepsPool db n (@throw A e).
Proof. intros t Hh Hd. now split. Qed.

Lemma keepsPool_lift n (r : Result A) : keepsPool db n (lift r).
Proof. intros t Hh Hd. now split. Qed.

Lemma keepsPool_bind n (m : M A) (k : A -> M B) :
  keepsPool db n m -> (forall a, keepsPool db n (k a)) ->
  keepsPool db n (bind m k).
Proof.
  intros Hm Hk t Hh Hd. unfold bind. specialize (Hm t Hh Hd).
  destruct (m t) as [[a|e] t1]; simpl in Hm.
  - now apply Hk.
  - exact Hm.
Qed.

Lemma keepsPool_tryCatch n (m : M A) (h : string -> M A) :
  keepsPool db n m -> (forall e, keepsPool db n (h e)) ->
  keepsPool db n (tryCatch m h).
Proof.
  intros Hm Hh t Hheld Hd. unfold tryCatch. specialize (Hm t Hheld Hd).
  destruct (m t) as [[a|e] t1]; simpl in Hm.
  - exact Hm.
  - now apply Hh.
Qed.

(** The pattern of getTableSchema and of the validator: connect, then a
    body under [try] whose [finally] releases.  The body runs with one
    more connection held; a refused connection holds nothing. *)
Lemma keepsPool_scoped n (body : M A) :
  keepsPool db (S n) body ->
  keepsPool db n (bind (connect db) (fun _ => tryFinally body release)).
Proof.
  intros Hbody t Hh Hd. unfold bind, connect, tryFinally, release.
  destruct (pool_connect db t) eqn:E.
  - simpl. rewrite E. now split.
  - assert (H1 : held db (PoolConnect :: t) = S n)
      by (simpl; rewrite E, Hh; reflexivity).
    assert (H2 : disciplined db (PoolConnect :: t) = true) by exact Hd.
    destruct (Hbody _ H1 H2) as [H3 H4].
    destruct (body (PoolConnect :: t)) as [r t1]. simpl in H3, H4 |- *.
    rewrite H3, H4. simpl. now split.
Qed.

End KeepsPool.

Lemma keepsPool_logger db n l message : keepsPool db n (logger l message).
Proof. intros t Hh Hd. simpl. now split. Qed.

Lemma keepsPool_query db n text : keepsPool db (S n) (query db text).
Proof.
  intros t Hh Hd. unfold query. cbn [snd held disciplined].
  rewrite Hh, Hd. now split.
Qed.

Lemma keepsPool_callGemini db model prompt :
  keepsPool db 0 (Gemini.callGemini model prompt).
Proof.
  intros t Hh Hd. unfold Gemini.callGemini. cbn [snd held disciplined].
  rewrite Hh, Hd. now split.
Qed.

Lemma keepsPool_callEmbed db {E Md} (sv : Vertex.Services E Md) text :
  keepsPool db 0 (Vertex.callEmbed sv text).
Proof.
  intros t Hh Hd. unfold Vertex.callEmbed. cbn [snd held disciplined].
  rewrite Hh, Hd. now split.
Qed.

Lemma keepsPool_callLlm db {E Md} (sv : Vertex.Services E Md) prompt :
  keepsPool db 0 (Vertex.callLlm sv prompt).
Proof.
  intros t Hh Hd. unfold Vertex.callLlm. cbn [snd held disciplined].
  rewrite Hh, Hd. now split.
Qed.

Lemma keepsPool_queryBothIndexes db {E Md} (sv : Vertex.Services E Md) vector :
  keepsPool db 0 (Vertex.queryBothIndexes sv vector).
Proof.
  intros t Hh Hd. unfold Vertex.queryBothIndexes. cbv zeta.
  destruct (Vertex.indexQuery sv t _ 5 vector);
    try match goal with
        | |- context [Vertex.indexQuery sv ?t1 ?i 3 vector] =>
            destruct (Vertex.indexQuery sv t1 i 3 vector)
        end; cbn [snd held disciplined]; rewrite Hh, Hd; now split.
Qed.

Ltac keeps_pool :=
  repeat match goal with
    | |- forall _, _ => intro
    | |- keepsPool _ _ (ret _) => apply keepsPool_ret
    | |- keepsPool _ _ (throw _) => apply keepsPool_throw
    | |- keepsPool _ _ (lift _) => apply keepsPool_lift
    | |- keepsPool _ _ (logger _ _) => apply keepsPool_logger
    | |- keepsPool _ _ (query _ _) => apply keepsPool_query
    | |- keepsPool _ _ (Gemini.callGemini _ _) => apply keepsPool_callGemini
    | |- keepsPool _ _ (Vertex.callEmbed _ _) => apply keepsPool_callEmbed
    | |- keepsPool _ _ (Vertex.callLlm _ _) => apply keepsPool_callLlm
    | |- keepsPool _ _ (Vertex.queryBothIndexes _ _) =>
        apply keepsPool_queryBothIndexes
    | |- keepsPool _ _ (bind (connect _) (fun _ => tryFinally _ release)) =>
        apply keepsPool_scoped
    | |- keepsPool _ _ (tryCatch _ _) => apply keepsPool_tryCatch
    | |- keepsPool _ _ (bind _ _) => apply keepsPool_bind
    | |- keepsPool _ _ (if ?c then _ else _) => destruct c
    | |- keepsPool _ _ (match ?c with _ => _ end) => destruct c
    | |- keepsPool _ _ (let _ := _ in _) => cbv zeta
    end.

Lemma keepsPool_getTableSchema db n : keepsPool db n (getTableSchema db).
Proof. unfold getTableSchema. keeps_pool. Qed.

Lemma keepsPool_validateWith db n found sqlQuery :
  keepsPool db n (validateWith db found sqlQuery).
Proof. unfold validateWith. keeps_pool. Qed.

Lemma keepsPool_generate {Embedding Metadata : Type}
  (w : World Embedding Metadata) (p : pipeline) (question : string) :
  keepsPool (database w) 0 (generate w p question).
Proof.
  destruct p; cbn [generate].
  - unfold Simple.generateSqlFromQuestion, Simple.validateSqlSyntax.
    repeat first [ apply keepsPool_getTableSchema
                 | apply keepsPool_validateWith
                 | progress keeps_pool ].
  - unfold Gemini.generateSqlFromQuestion, Gemini.validateSqlSyntax.
    repeat first [ apply keepsPool_getTableSchema
                 | apply keepsPool_validateWith
                 | progress keeps_pool ].
  - unfold Vertex.generateSqlFromQuestion, Vertex.parseAndValidateResponse,
      Vertex.retrieveContext, Vertex.rejectResponse, Vertex.validateSqlSyntax.
    repeat first [ apply keepsPool_validateWith
                 | progress keeps_pool ].
Qed.

(** X7.  Each of the three generators leaves the pool as it found it and
    keeps its discipline, whatever the outcome of the run: every connection
    it was granted is released, also when the query, the grouping or the
    model throws; every query is made on a held connection; and no model,
    embedding or index call is made while a connection is held. *)
Theorem generators_keep_pool_discipline {Embedding Metadata : Type}
  (w : World Embedding Metadata) (p : pipeline) (question : string)
  (t : trace) :
  held (database w) t = 0 ->
  disciplined (database w) t = true ->
  held (database w) (snd (generate w p question t)) = 0 /\
  disciplined (database w) (snd (generate w p question t)) = true.
Proof. apply keepsPool_generate. Qed.

Lemma generators_keep_pool_discipline_witness :
  held productsDb (snd (generate sampleWorld GeminiAI "Show all users" [])) = 0 /\
  disciplined productsDb (snd (generate sampleWorld GeminiAI "Show all users" []))
  = true.
Proof.
  apply (generators_keep_pool_discipline sampleWorld GeminiAI "Show all users" []).
  - reflexivity.
  - reflexivity.
Defined.

(** ** What the screens let through, and what they stop *)

Lemma simple_screen_none normalizedSql keyword :
  Simple.foundForbiddenKeyword normalizedSql = None ->
  In keyword forbiddenKeywords ->
  ~ standsAlone normalizedSql keyword.
Proof.
  unfold Simple.foundForbiddenKeyword. intros Hnone Hin.
  pose proof (find_none _ _ Hnone keyword Hin) as H. cbv beta in H.
  apply orb_false_iff in H as [H1 H2].
  intros [Hc|[rest ->]].
  - apply includes_contains in Hc. exact (eq_true_false_abs _ Hc H1).
  - rewrite <- append_assoc, startsWith_app in H2. discriminate.
Qed.

Lemma vertex_screen_none normalizedSql keyword :
  Vertex.foundForbiddenKeyword normalizedSql = None ->
  In keyword forbiddenKeywords ->
  ~ contains normalizedSql (" " ++ keyword ++ " ").
Proof.
  unfold Vertex.foundForbiddenKeyword. intros Hnone Hin Hc.
  pose proof (find_none _ _ Hnone keyword Hin) as H. cbv beta in H.
  apply includes_contains in Hc. exact (eq_true_false_abs _ Hc H).
Qed.

Lemma simple_screen_some normalizedSql keyword :
  In keyword forbiddenKeywords ->
  standsAlone normalizedSql keyword ->
  exists found, Simple.foundForbiddenKeyword normalizedSql = Some found.
Proof.
  intros Hin Hs.
  destruct (Simple.foundForbiddenKeyword normalizedSql) as [k|] eqn:E;
    [now exists k|].
  destruct (simple_screen_none _ _ E Hin Hs).
Qed.

Lemma vertex_screen_some normalizedSql keyword :
  In keyword forbiddenKeywords ->
  contains normalizedSql (" " ++ keyword ++ " ") ->
  exists found, Vertex.foundForbiddenKeyword normalizedSql = Some found.
Proof.
  intros Hin Hs.
  destruct (Vertex.foundForbiddenKeyword normalizedSql) as [k|] eqn:E;
    [now exists k|].
  destruct (vertex_screen_none _ _ E Hin Hs).
Qed.

(** X8.  A statement in which a forbidden keyword stands between two
    spaces is refused by all three validators, and one in which it stands
    at the start before a space by the validators of the pattern-matching
    and Gemini services, without any call to the database: the run adds
    two log lines and nothing else. *)
Theorem forbidden_statement_never_reaches_database (db : Database)
  (sqlQuery keyword : string) (t : trace) :
  In keyword forbiddenKeywords ->
  standsAlone (toLowerCase sqlQuery) keyword ->
  let refusal :=
    (Ok forbidden,
     Log Warn "SQL validation failed - forbidden keyword detected"
       :: Log Debug "Starting SQL syntax validation" :: t) in
  Simple.validateSqlSyntax db sqlQuery t = refusal /\
  Gemini.validateSqlSyntax db sqlQuery t = refusal /\
  (contains (toLowerCase sqlQuery) (" " ++ keyword ++ " ") ->
   Vertex.validateSqlSyntax db sqlQuery t = refusal).
Proof.
  intros Hin Hs refusal. subst refusal.
  destruct (simple_screen_some _ _ Hin Hs) as [k Hk].
  assert (Hsimple : Simple.validateSqlSyntax db sqlQuery t
                    = (Ok forbidden,
                       Log Warn "SQL validation failed - forbidden keyword detected"
                         :: Log Debug "Starting SQL syntax validation" :: t)).
  { unfold Simple.validateSqlSyntax. now rewrite validateWith_run, Hk. }
  split; [exact Hsimple|]. split; [exact Hsimple|].
  intros Hc. destruct (vertex_screen_some _ _ Hin Hc) as [k' Hk'].
  unfold Vertex.validateSqlSyntax. now rewrite validateWith_run, Hk'.
Qed.

Lemma forbidden_statement_never_reaches_database_witness :
  Simple.validateSqlSyntax productsDb "SELECT 1; Drop TABLE users" []
  = (Ok forbidden,
     [Log Warn "SQL validation failed - forbidden keyword detected";
      Log Debug "Starting SQL syntax validation"]).
Proof.
  refine (proj1 (forbidden_statement_never_reaches_database productsDb
                   "SELECT 1; Drop TABLE users" "drop" [] _ _)).
  - right; right; right; left. reflexivity.
  - left. exists "select 1;", "table users". reflexivity.
Defined.

(** X9.  A text returned by a generator passed the screen of that
    generator: none of the nine keywords stands between two spaces in its
    lower-cased form, and, for the pattern-matching and Gemini generators,
    none stands at its start before a space. *)
Theorem returned_sql_passed_the_screen {Embedding Metadata : Type}
  (w : World Embedding Metadata) (p : pipeline) (question : string)
  (t t' : trace) (sqlQuery keyword : string) :
  generate w p question t = (Ok sqlQuery, t') ->
  In keyword forbiddenKeywords ->
  ~ contains (toLowerCase sqlQuery) (" " ++ keyword ++ " ") /\
  (p <> VertexAI -> ~ standsAlone (toLowerCase sqlQuery) keyword).
Proof.
  rewrite generate_gate.
  destruct (candidate w p question t) as [[s|e] t1]; [|discriminate].
  destruct (validator w p s t1) as [[v|e] t2] eqn:Hv; [|discriminate].
  destruct (isValid v) eqn:Hvalid; [|discriminate].
  intros [= -> <-] Hin.
  destruct p; cbn [validator] in Hv;
    apply validateWith_valid_inv in Hv; try exact Hvalid;
    destruct Hv as (_ & Hnone & _).
  - split.
    + intros Hc. apply (simple_screen_none _ _ Hnone Hin). now left.
    + intros _. exact (simple_screen_none _ _ Hnone Hin).
  - split.
    + intros Hc. apply (simple_screen_none _ _ Hnone Hin). now left.
    + intros _. exact (simple_screen_none _ _ Hnone Hin).
  - split.
    + exact (vertex_screen_none _ _ Hnone Hin).
    + intros H. now destruct H.
Qed.

Lemma returned_sql_passed_the_screen_witness :
  ~ contains (toLowerCase "SELECT 1") (" " ++ "delete" ++ " ") /\
  (GeminiAI <> VertexAI -> ~ standsAlone (toLowerCase "SELECT 1") "delete").
Proof.
  apply (returned_sql_passed_the_screen sampleWorld GeminiAI "one" []
           (snd (generate sampleWorld GeminiAI "one" [])) "SELECT 1" "delete").
  - reflexivity.
  - right; right; left. reflexivity.
Defined.

(** ** The route, beyond the empty question *)

(** X10.  For a question that is a string the handler never throws and
    answers with one of three statuses: 400 exactly for the empty string;
    200 with the text of the generator when the generator returns; 500
    with the fixed text "Failed to generate SQL query." when the generator
    throws, so the message of the generator's error is logged and never
    sent. *)
Theorem route_answers_every_string_question
  (generateSqlFromQuestion : string -> M string) (q : string) (t : trace) :
  let received := Log Info "SQL generation request received" :: t in
  exists response t',
    Api.generate_sql generateSqlFromQuestion (Api.Str q) t = (Ok response, t')
    /\
    ((q = "" /\ Api.status response = 400 /\
      Api.json response = Api.ErrorBody "Question is required.")
     \/
     (q <> "" /\ Api.status response = 200 /\
      exists sql t1,
        generateSqlFromQuestion q received = (Ok sql, t1) /\
        Api.json response = Api.SqlBody sql)
     \/
     (q <> "" /\ Api.status response = 500 /\
      Api.json response = Api.ErrorBody "Failed to generate SQL query." /\
      exists message t1,
        generateSqlFromQuestion q received = (Err message, t1))).
Proof.
  intros received. subst received. unfold Api.generate_sql.
  destruct q as [|c q]; cbn [Api.truthyValue truthy negb].
  - eexists _, _. split; [reflexivity|]. left. now repeat split.
  - cbv [bind logger tryCatch ret].
    destruct (generateSqlFromQuestion (String c q) _) as [[sql|message] t1] eqn:E.
    + eexists _, _. split; [reflexivity|]. right; left.
      repeat split; try discriminate. now exists sql, t1.
    + eexists _, _. split; [reflexivity|]. right; right.
      repeat split; try discriminate. now exists message, t1.
Qed.

(** X11.  A question that is truthy and not a string (true, a number other
    than zero, an array, an object) makes the handler throw while it
    builds its first log line: nothing is logged, the generator is not
    called and no response is made. *)
Theorem route_throws_on_non_string_question
  (generateSqlFromQuestion : string -> M string) (question : Api.JsValue)
  (t : trace) :
  Api.truthyValue question = true ->
  (forall s, question <> Api.Str s) ->
  Api.generate_sql generateSqlFromQuestion question t
  = (Err "question.substring is not a function", t).
Proof.
  intros Htruthy Hstr. unfold Api.generate_sql. rewrite Htruthy.
  destruct question; try discriminate; try reflexivity.
  now destruct (Hstr s).
Qed.

Lemma route_throws_on_non_string_question_witness :
  Api.router productsDb (gemini sampleWorld) (Api.Number 42) []
  = (Err "question.substring is not a function", []).
Proof.
  apply (route_throws_on_non_string_question
           (Gemini.generateSqlFromQuestion productsDb (gemini sampleWorld))
           (Api.Number 42) []).
  - reflexivity.
  - discriminate.
Defined.

Lemma keepsPool_route db (generateSqlFromQuestion : string -> M string)
  (question : Api.JsValue) :
  (forall q, keepsPool db 0 (generateSqlFromQuestion q)) ->
  keepsPool db 0 (Api.generate_sql generateSqlFromQuestion question).
Proof.
  intros Hgen. unfold Api.generate_sql.
  destruct question; cbn [Api.truthyValue];
    repeat first [ apply Hgen | progress keeps_pool ].
Qed.

(** X12.  The route as wired keeps the discipline of the pool for every
    request body: whatever the question and whatever the outcome, no
    connection stays held after the handler, queries are made on a held
    connection, and the model is never called while one is held. *)
Theorem route_keeps_pool_discipline (db : Database) (model : Gemini.Model)
  (question : Api.JsValue) (t : trace) :
  held db t = 0 ->
  disciplined db t = true ->
  held db (snd (Api.router db model question t)) = 0 /\
  disciplined db (snd (Api.router db model question t)) = true.
Proof.
  apply keepsPool_route. intros q.
  exact (keepsPool_generate (wiredWorld db model) GeminiAI q).
Qed.

Lemma route_keeps_pool_discipline_witness :
  held constructorDb
    (snd (Api.router constructorDb (gemini sampleWorld) (Api.Str "users") []))
  = 0 /\
  disciplined constructorDb
    (snd (Api.router constructorDb (gemini sampleWorld) (Api.Str "users") []))
  = true.
Proof.
  apply (route_keeps_pool_discipline constructorDb (gemini sampleWorld)
           (Api.Str "users") []).
  - reflexivity.
  - reflexivity.
Defined.

(** X13.  A 200 response of the route as wired carries a text that went
    through the validator of the Gemini service: EXPLAIN of that very text
    was sent to the database during the request, and none of the nine
    keywords stands alone in its lower-cased form. *)
Theorem ok_response_carries_validated_sql (db : Database)
  (model : Gemini.Model) (q : string) (t t' : trace)
  (response : Api.Response) :
  Api.router db model (Api.Str q) t = (Ok response, t') ->
  Api.status response = 200 ->
  exists sql,
    Api.json response = Api.SqlBody sql /\
    In (ClientQuery ("EXPLAIN " ++ sql)) t' /\
    (forall keyword,
       In keyword forbiddenKeywords ->
       ~ standsAlone (toLowerCase sql) keyword).
Proof.
  unfold Api.router, Api.generate_sql.
  destruct q as [|c q]; cbn [Api.truthyValue truthy negb].
  { cbv [bind logger ret]. intros [= <- <-]. discriminate. }
  cbv [bind logger tryCatch ret].
  change (Gemini.generateSqlFromQuestion db model (String c q))
    with (generate (wiredWorld db model) GeminiAI (String c q)).
  rewrite generate_gate.
  destruct (candidate _ GeminiAI _ _) as [[s|e] t1];
    [|intros [= <- <-]; discriminate].
  destruct (validator _ GeminiAI s t1) as [[v|e] t2] eqn:Hv;
    [|intros [= <- <-]; discriminate].
  destruct (isValid v) eqn:Hvalid; [|intros [= <- <-]; discriminate].
  intros [= <- <-] _. exists s.
  cbn [validator wiredWorld database] in Hv.
  apply validateWith_valid_inv in Hv; [|exact Hvalid].
  destruct Hv as (_ & Hnone & _ & ->).
  split; [reflexivity|]. split.
  - cbn [returned]. right; right; right; right; left. reflexivity.
  - intros keyword Hin. exact (simple_screen_none _ _ Hnone Hin).
Qed.

Lemma ok_response_carries_validated_sql_witness :
  exists sql,
    Api.json {| Api.status := 200; Api.json := Api.SqlBody "SELECT 1" |}
    = Api.SqlBody sql /\
    In (ClientQuery ("EXPLAIN " ++ sql))
       (snd (Api.router productsDb (gemini sampleWorld) (Api.Str "one") [])) /\
    (forall keyword,
       In keyword forbiddenKeywords ->
       ~ standsAlone (toLowerCase sql) keyword).
Proof.
  apply (ok_response_carries_validated_sql productsDb (gemini sampleWorld)
           "one" []).
  - reflexivity.
  - reflexivity.
Defined.

(** ** More about the pattern-matching generator *)

Lemma dead_patterns (lq : string) :
  (includes lq "orders" = false ->
   includes lq "orders by user" = false /\
   includes lq "user orders" = false /\
   includes lq "recent orders" = false) /\
  (includes lq "products" = false ->
   includes lq "top products" = false /\
   includes lq "popular products" = false).
Proof.
  split; intros H; repeat split.
  - apply (includes_infix lq "" "orders" " by user" H).
  - apply (includes_infix lq "user " "orders" "" H).
  - apply (includes_infix lq "recent " "orders" "" H).
  - apply (includes_infix lq "top " "products" "" H).
  - apply (includes_infix lq "popular " "products" "" H).
Qed.

(** Splits the conditions of generateSimpleQuery, the patterns that
    cannot match being set to [false] first. *)
Ltac split_patterns lq :=
  destruct (dead_patterns lq) as [Ho Hp];
  destruct (includes lq "orders") eqn:Eo;
    [|destruct (Ho eq_refl) as (H1 & H2 & H3); rewrite ?H1, ?H2, ?H3];
  (destruct (includes lq "products") eqn:Ep;
    [|destruct (Hp eq_refl) as (H4 & H5); rewrite ?H4, ?H5]);
  cbn [orb andb];
  repeat match goal with
         | |- context [if ?c then _ else _] => destruct c eqn:?
         end.

(** X14.  generateSimpleQuery understands a question, that is, returns a
    query instead of throwing, exactly when the lower-cased question
    contains users, products, orders, total revenue or total sales, or
    both product and category. *)
Theorem understood_questions (question : string) (tables : list Table.t) :
  let lq := toLowerCase question in
  isOk (Simple.generateSimpleQuery question tables) = true <->
  contains lq "users" \/ contains lq "products" \/ contains lq "orders" \/
  contains lq "total revenue" \/ contains lq "total sales" \/
  (contains lq "product" /\ contains lq "category").
Proof.
  intros lq. rewrite <- !includes_contains.
  assert (H : isOk (Simple.generateSimpleQuery question tables)
              = includes lq "users" || includes lq "products"
                || includes lq "orders" || includes lq "total revenue"
                || includes lq "total sales"
                || (includes lq "product" && includes lq "category")).
  { unfold Simple.generateSimpleQuery. fold lq.
    destruct (includes lq "users") eqn:Eu;
    destruct (includes lq "total revenue") eqn:Er;
    destruct (includes lq "total sales") eqn:Es;
    destruct (includes lq "product") eqn:Ed;
    destruct (includes lq "category") eqn:Ec;
    destruct (includes lq "count") eqn:En;
    split_patterns lq; reflexivity. }
  rewrite H.
  destruct (includes lq "users"), (includes lq "products"),
    (includes lq "orders"), (includes lq "total revenue"),
    (includes lq "total sales"), (includes lq "product"),
    (includes lq "category"); cbn; intuition congruence.
Qed.

(** X15.  Every text generateSimpleQuery returns is a SELECT statement in
    which its own keyword screen finds nothing: the validation of a
    pattern-matched query can only fail at the database. *)
Theorem templates_pass_the_screen (question : string) (tables : list Table.t)
  (sql : string) :
  Simple.generateSimpleQuery question tables = Ok sql ->
  startsWith sql "SELECT " = true /\
  Simple.foundForbiddenKeyword (toLowerCase sql) = None.
Proof.
  unfold Simple.generateSimpleQuery.
  set (lq := toLowerCase question).
  split_patterns lq; intros [= <-]; split; reflexivity.
Qed.

Lemma templates_pass_the_screen_witness :
  startsWith Simple.productsByCategory "SELECT " = true /\
  Simple.foundForbiddenKeyword (toLowerCase Simple.productsByCategory) = None.
Proof.
  apply (templates_pass_the_screen "Average price per product category" []).
  reflexivity.
Defined.

(** ** Which collaborators a generator talks to *)

Lemma emitsOnly_getTableSchema allowed db :
  (forall l message, allowed (Log l message) = true) ->
  (forall e, isDatabaseCall e = true -> allowed e = true) ->
  emitsOnly allowed (getTableSchema db).
Proof.
  intros Hlog Hdb. unfold getTableSchema.
  apply emitsOnly_bind; [apply emitsOnly_connect; now apply Hdb|intros _].
  apply emitsOnly_tryFinally; [|apply emitsOnly_release; now apply Hdb].
  apply emitsOnly_bind; [apply emitsOnly_query; now apply Hdb|intros rows].
  apply emitsOnly_bind; [apply emitsOnly_lift|intros tables].
  apply emitsOnly_ret.
Qed.

Lemma emitsOnly_validateWith allowed db found sqlQuery :
  (forall l message, allowed (Log l message) = true) ->
  (forall e, isDatabaseCall e = true -> allowed e = true) ->
  emitsOnly allowed (validateWith db found sqlQuery).
Proof.
  intros Hlog Hdb. unfold validateWith.
  apply emitsOnly_bind; [apply emitsOnly_logger, Hlog|intros _]. cbv zeta.
  destruct (found (toLowerCase sqlQuery)).
  - apply emitsOnly_bind; [apply emitsOnly_logger, Hlog|intros _].
    apply emitsOnly_ret.
  - apply emitsOnly_bind; [apply emitsOnly_connect; now apply Hdb|intros _].
    apply emitsOnly_tryFinally; [|apply emitsOnly_release; now apply Hdb].
    apply emitsOnly_tryCatch.
    + apply emitsOnly_bind; [apply emitsOnly_logger, Hlog|intros _].
      apply emitsOnly_bind; [apply emitsOnly_query; now apply Hdb|intros _].
      apply emitsOnly_bind; [apply emitsOnly_logger, Hlog|intros _].
      apply emitsOnly_ret.
    + intros e.
      apply emitsOnly_bind; [apply emitsOnly_logger, Hlog|intros _].
      apply emitsOnly_ret.
Qed.

(** X16.  The pattern-matching generator is free of any model: a run,
    whatever its outcome, only adds log lines and database calls to the
    trace, never a call of a language model, of the embedding service or
    of a vector index. *)
Theorem pattern_matching_calls_no_model (db : Database) (question : string)
  (t : trace) :
  exists new,
    snd (Simple.generateSqlFromQuestion db question t) = (new ++ t)%list /\
    forallb (fun e => negb (isModelCall e)) new = true.
Proof.
  revert t.
  change (emitsOnly (fun e => negb (isModelCall e))
            (Simple.generateSqlFromQuestion db question)).
  unfold Simple.generateSqlFromQuestion, Simple.validateSqlSyntax.
  repeat first
    [ apply emitsOnly_getTableSchema;
      [reflexivity|intros []; (discriminate || reflexivity)]
    | apply emitsOnly_validateWith;
      [reflexivity|intros []; (discriminate || reflexivity)]
    | progress emits_only ].
Qed.

Lemma emitsOnly_vertex_candidate {Embedding Metadata : Type}
  (w : World Embedding Metadata) (question : string) :
  emitsOnly (fun e => negb (isDatabaseCall e)) (candidate w VertexAI question).
Proof.
  cbn [candidate]. unfold Vertex.retrieveContext, Vertex.rejectResponse.
  emits_only.
Qed.

(** X17.  The Vertex generator reaches the database only through its
    validator: when the run fails before a query is extracted (the
    embedding, an index query or the model throws, or the response holds
    no usable query), the generator throws that same error and has made
    no call to the database at all. *)
Theorem vertex_failure_before_validation_touches_no_database
  {Embedding Metadata : Type} (w : World Embedding Metadata)
  (question : string) (t t1 : trace) (message : string) :
  candidate w VertexAI question t = (Err message, t1) ->
  fst (generate w VertexAI question t) = Err message /\
  exists new,
    snd (generate w VertexAI question t) = (new ++ t)%list /\
    forallb (fun e => negb (isDatabaseCall e)) new = true.
Proof.
  intros Hc. rewrite generate_gate, Hc. cbn [fst snd failed].
  split; [reflexivity|].
  destruct (emitsOnly_vertex_candidate w question t) as (new & E & H).
  rewrite Hc in E. simpl in E. subst t1.
  exists (Log Error "SQL generation failed" :: new). now split.
Qed.

Lemma vertex_failure_before_validation_touches_no_database_witness :
  fst (generate (wiredWorld productsDb (gemini sampleWorld)) VertexAI "one" [])
  = Err "not configured" /\
  exists new,
    snd (generate (wiredWorld productsDb (gemini sampleWorld)) VertexAI "one" [])
    = (new ++ [])%list /\
    forallb (fun e => negb (isDatabaseCall e)) new = true.
Proof.
  apply (vertex_failure_before_validation_touches_no_database
           (wiredWorld productsDb (gemini sampleWorld)) "one" []
           (snd (candidate (wiredWorld productsDb (gemini sampleWorld))
                   VertexAI "one" []))).
  reflexivity.
Defined.

(** ** White space, lines, and the cleaning of a fenced response *)

Lemma blank_app a b : blank (a ++ b) = blank a && blank b.
Proof.
  unfold blank. induction a as [|c a IH]; simpl; [reflexivity|].
  now rewrite IH, andb_assoc.
Qed.

Lemma trimStart_blank s : trimStart s = "" <-> blank s = true.
Proof.
  unfold trimStart, blank. induction s as [|c s IH]; simpl.
  - tauto.
  - destruct (isWhiteSpace c); simpl; [exact IH|]. split; discriminate.
Qed.

Lemma trimEnd_blank s : trimEnd s = "" <-> blank s = true.
Proof.
  unfold blank. induction s as [|c s IH]; simpl.
  - tauto.
  - destruct (trimEnd s) eqn:E.
    + destruct (isWhiteSpace c); simpl.
      * split; [intros _; now apply IH|reflexivity].
      * split; discriminate.
    + split; [discriminate|].
      intros H. apply andb_true_iff in H as [_ H]. apply IH in H. discriminate.
Qed.

Lemma trim_blank s : trim s = "" <-> blank s = true.
Proof.
  unfold trim. rewrite trimEnd_blank. unfold trimStart, blank.
  induction s as [|c s IH]; simpl; [tauto|].
  destruct (isWhiteSpace c) eqn:E; simpl; [exact IH|].
  rewrite E. simpl. tauto.
Qed.

Lemma trimStart_headSolid s : headSolid (trimStart s).
Proof.
  unfold trimStart. induction s as [|c s IH]; simpl; [exact I|].
  destruct (isWhiteSpace c) eqn:E; [exact IH|exact E].
Qed.

Lemma trimStart_id s : headSolid s -> trimStart s = s.
Proof. destruct s as [|c s]; simpl; [reflexivity|]. unfold trimStart. simpl. now intros ->. Qed.

Lemma trimEnd_headSolid s : headSolid s -> headSolid (trimEnd s).
Proof.
  destruct s as [|c s]; simpl; [exact id|]. intros H.
  destruct (trimEnd s); [rewrite H|]; exact H.
Qed.

Lemma trimEnd_idem s : trimEnd (trimEnd s) = trimEnd s.
Proof.
  induction s as [|c s IH]; simpl; [reflexivity|].
  destruct (trimEnd s) as [|d r] eqn:E.
  - destruct (isWhiteSpace c) eqn:Ec; simpl; [reflexivity|]. now rewrite Ec.
  - cbn [trimEnd]. cbn [trimEnd] in IH. rewrite IH. reflexivity.
Qed.

Lemma trim_idem s : trim (trim s) = trim s.
Proof.
  unfold trim.
  rewrite (trimStart_id (trimEnd (trimStart s))).
  - apply trimEnd_idem.
  - apply trimEnd_headSolid, trimStart_headSolid.
Qed.

Lemma trimStart_trimEnd s : trimStart (trimEnd s) = trimEnd (trimStart s).
Proof.
  induction s as [|c s IH]; [reflexivity|].
  destruct (isWhiteSpace c) eqn:Ec.
  - assert (Hs : trimStart (String c s) = trimStart s)
      by (unfold trimStart; simpl; now rewrite Ec).
    rewrite Hs. cbn [trimEnd].
    destruct (trimEnd s) as [|d r] eqn:E.
    + rewrite Ec. apply trimEnd_blank in E.
      apply trimStart_blank in E. now rewrite E.
    + rewrite <- IH. unfold trimStart. simpl. now rewrite Ec.
  - assert (H : headSolid (String c s)) by exact Ec.
    rewrite (trimStart_id _ H).
    apply trimStart_id, trimEnd_headSolid, H.
Qed.

Lemma trim_trimStart s : trim (trimStart s) = trim s.
Proof.
  unfold trim. now rewrite (trimStart_id _ (trimStart_headSolid s)).
Qed.

Lemma trim_trimEnd s : trim (trimEnd s) = trim s.
Proof. unfold trim. now rewrite trimStart_trimEnd, trimEnd_idem. Qed.

Lemma trimStart_app l x :
  blank l = false -> trimStart (l ++ x) = trimStart l ++ x.
Proof.
  unfold trimStart, blank. induction l as [|c l IH]; simpl; [discriminate|].
  destruct (isWhiteSpace c); simpl; [exact IH|reflexivity].
Qed.

Lemma trimEnd_app x l :
  blank l = false -> trimEnd (x ++ l) = x ++ trimEnd l.
Proof.
  intros Hl. induction x as [|c x IH]; [reflexivity|].
  change (String c x ++ l) with (String c (x ++ l)). cbn [trimEnd].
  rewrite IH.
  change (String c x ++ trimEnd l) with (String c (x ++ trimEnd l)).
  destruct (x ++ trimEnd l) eqn:E; [|reflexivity].
  destruct x; [|discriminate]. simpl in E.
  apply trimEnd_blank in E. congruence.
Qed.

Lemma keepLine_trim a b : trim a = trim b -> Gemini.keepLine a = Gemini.keepLine b.
Proof. unfold Gemini.keepLine. now intros ->. Qed.

Lemma keepLine_solid l : Gemini.keepLine l = true -> blank l = false.
Proof.
  unfold Gemini.keepLine. intros H.
  destruct (blank l) eqn:E; [|reflexivity].
  apply trim_blank in E. rewrite E in H. discriminate.
Qed.

Lemma filter_all {A} (f : A -> bool) l : forallb f l = true -> filter f l = l.
Proof.
  induction l as [|x l IH]; simpl; [reflexivity|].
  intros H. apply andb_true_iff in H as [-> H]. now rewrite IH.
Qed.

Lemma splitLines_nonempty s : splitLines s <> [].
Proof.
  destruct s as [|c s]; simpl; [discriminate|].
  destruct (Ascii.eqb c _); [discriminate|]. destruct (splitLines s); discriminate.
Qed.

Lemma join_cons l ls :
  join LF (l :: ls) = match ls with [] => l | _ => l ++ LF ++ join LF ls end.
Proof. destruct ls; reflexivity. Qed.

Lemma join_splitLines s : join LF (splitLines s) = s.
Proof.
  induction s as [|c s IH]; [reflexivity|].
  cbn [splitLines].
  destruct (Ascii.eqb c (ascii_of_nat 10)) eqn:E.
  - apply Ascii.eqb_eq in E. subst c. rewrite join_cons.
    destruct (splitLines s) eqn:El; [now destruct (splitLines_nonempty s)|].
    now rewrite IH.
  - destruct (splitLines s) as [|l ls] eqn:El; [now destruct (splitLines_nonempty s)|].
    rewrite <- IH. rewrite !join_cons. destruct ls; reflexivity.
Qed.

Lemma splitLines_oneLine s : oneLine s = true -> splitLines s = [s].
Proof.
  unfold oneLine. induction s as [|c s IH]; simpl; [reflexivity|].
  intros H. apply andb_true_iff in H as [Hc H].
  apply negb_true_iff in Hc. rewrite Hc, (IH H). reflexivity.
Qed.

Lemma splitLines_app a b :
  splitLines (a ++ LF ++ b) = (splitLines a ++ splitLines b)%list.
Proof.
  induction a as [|c a IH]; [reflexivity|].
  change (String c a ++ LF ++ b) with (String c (a ++ LF ++ b)).
  cbn [splitLines]. rewrite IH.
  destruct (Ascii.eqb c (ascii_of_nat 10)); [reflexivity|].
  destruct (splitLines a) eqn:E; [now destruct (splitLines_nonempty a)|].
  reflexivity.
Qed.

Lemma splitLines_lines s : forallb oneLine (splitLines s) = true.
Proof.
  induction s as [|c s IH]; [reflexivity|].
  cbn [splitLines].
  destruct (Ascii.eqb c (ascii_of_nat 10)) eqn:E.
  - exact IH.
  - destruct (splitLines s) as [|l ls]; [simpl; unfold oneLine; simpl; now rewrite E|].
    cbn [forallb] in *. apply andb_true_iff in IH as [Hl Hls].
    rewrite Hls, andb_true_r. unfold oneLine in *. simpl. now rewrite E, Hl.
Qed.

Lemma splitLines_join ls :
  ls <> [] -> forallb oneLine ls = true -> splitLines (join LF ls) = ls.
Proof.
  induction ls as [|l ls IH]; [congruence|]. intros _ H.
  cbn [forallb] in H. apply andb_true_iff in H as [Hl Hls].
  rewrite join_cons. destruct ls as [|l2 ls].
  - now apply splitLines_oneLine.
  - rewrite splitLines_app, (splitLines_oneLine _ Hl), IH; [reflexivity|discriminate|exact Hls].
Qed.

Lemma length_append a b : String.length (a ++ b) = String.length a + String.length b.
Proof. induction a as [|c a IH]; simpl; [reflexivity|now rewrite IH]. Qed.

Lemma removeFenceClose_fence body :
  Gemini.removeFenceClose (body ++ LF ++ "```") = body.
Proof.
  induction body as [|c b IH]; [reflexivity|].
  change (String c b ++ LF ++ "```") with (String c (b ++ LF ++ "```")).
  cbn [Gemini.removeFenceClose]. rewrite IH.
  destruct (String.eqb (String c (b ++ LF ++ "```")) (LF ++ "```")) eqn:E1.
  { apply String.eqb_eq in E1. apply (f_equal String.length) in E1.
    simpl in E1. rewrite length_append in E1. simpl in E1. lia. }
  destruct (String.eqb (String c (b ++ LF ++ "```")) "```") eqn:E2.
  { apply String.eqb_eq in E2. apply (f_equal String.length) in E2.
    simpl in E2. rewrite length_append in E2. simpl in E2. lia. }
  reflexivity.
Qed.

Lemma startsWith_fence_app body x :
  startsWith body "```" = false ->
  startsWith (body ++ LF ++ x) "```" = false.
Proof.
  destruct body as [|a [|b [|c r]]]; simpl; try reflexivity.
  - intros _. destruct (Ascii.eqb a "`"); reflexivity.
  - intros _. destruct (Ascii.eqb a "`"), (Ascii.eqb b "`"); reflexivity.
  - exact id.
Qed.

Lemma trimStart_pad pad s : blank pad = true -> trimStart (pad ++ s) = trimStart s.
Proof.
  unfold blank, trimStart. induction pad as [|c p IH]; simpl; [reflexivity|].
  intros H. apply andb_true_iff in H as [-> H]. exact (IH H).
Qed.

Lemma trimEnd_pad pad s : blank pad = true -> trimEnd (s ++ pad) = trimEnd s.
Proof.
  intros H. induction s as [|c s IH].
  - simpl. now apply trimEnd_blank.
  - change (String c s ++ pad) with (String c (s ++ pad)).
    cbn [trimEnd]. now rewrite IH.
Qed.

Lemma trim_pad before s after :
  blank before = true -> blank after = true ->
  trim (before ++ s ++ after) = trim s.
Proof.
  intros Hb Ha. unfold trim. rewrite (trimStart_pad _ _ Hb).
  rewrite <- !trimStart_trimEnd. now rewrite (trimEnd_pad _ _ Ha).
Qed.

Lemma trim_fenced x :
  trim ("```" ++ x ++ "```") = "```" ++ x ++ "```".
Proof.
  unfold trim. rewrite trimStart_id by reflexivity.
  change ("```" ++ x ++ "```") with (("```" ++ x) ++ "```") at 1.
  replace ("```" ++ x ++ "```") with (("```" ++ x) ++ "```") by reflexivity.
  rewrite trimEnd_app by reflexivity. reflexivity.
Qed.

(** X4.  A statement wrapped in a Markdown fence, with or without the
    language tag [sql] in any case, and with white space around the fence,
    is unwrapped exactly: when the statement has nothing to trim, does not
    itself start with a fence, and none of its lines is blank, a comment
    or prose, [cleanSqlResponse] returns the statement as it is. *)
Theorem fenced_statement_is_unwrapped before lang body after :
  blank before = true -> blank after = true ->
  toLowerCase lang = "sql" \/ lang = "" ->
  trim body = body ->
  startsWith body "```" = false ->
  forallb Gemini.keepLine (splitLines body) = true ->
  Gemini.cleanSqlResponse
    (before ++ ("```" ++ lang ++ LF ++ body ++ LF ++ "```") ++ after) = body.
Proof.
  intros Hb Ha Hlang Htrim Hopen Hlines.
  unfold Gemini.cleanSqlResponse. cbv zeta.
  rewrite (trim_pad _ _ _ Hb Ha).
  replace ("```" ++ lang ++ LF ++ body ++ LF ++ "```")
    with ("```" ++ (lang ++ LF ++ body ++ LF) ++ "```")
    by (now rewrite !append_assoc).
  rewrite trim_fenced.
  assert (E : Gemini.removeFenceOpen (Gemini.removeFenceSql
                ("```" ++ (lang ++ LF ++ body ++ LF) ++ "```"))
              = body ++ LF ++ "```").
  { destruct Hlang as [Hl | ->].
    - destruct lang as [|a [|b [|c [|d r]]]]; simpl in Hl; try discriminate.
      injection Hl as Ha' Hb' Hc'.
      unfold Gemini.removeFenceSql. simpl. rewrite Ha', Hb', Hc'. simpl.
      rewrite append_assoc.
      change (Gemini.removeFenceOpen (body ++ LF ++ "```") = body ++ LF ++ "```").
      unfold Gemini.removeFenceOpen.
      now rewrite (startsWith_fence_app _ _ Hopen).
    - rewrite !append_assoc. reflexivity. }
  rewrite E, removeFenceClose_fence, Htrim, (filter_all _ _ Hlines).
  now rewrite join_splitLines.
Qed.

Lemma fenced_statement_is_unwrapped_witness :
  Gemini.cleanSqlResponse
    (LF ++ ("```" ++ "SQL" ++ LF ++ ("SELECT name" ++ LF ++ "FROM users") ++ LF ++ "```") ++ LF)
  = "SELECT name" ++ LF ++ "FROM users".
Proof.
  apply fenced_statement_is_unwrapped; try reflexivity. now left.
Defined.

Lemma oneLine_dropWhile f s : oneLine s = true -> oneLine (dropWhile f s) = true.
Proof.
  unfold oneLine. induction s as [|c s IH]; simpl; [reflexivity|].
  intros H. destruct (f c); [|exact H].
  apply andb_true_iff in H as [_ H]. exact (IH H).
Qed.

Lemma oneLine_trimEnd s : oneLine s = true -> oneLine (trimEnd s) = true.
Proof.
  unfold oneLine. induction s as [|c s IH]; simpl; [reflexivity|].
  intros H. apply andb_true_iff in H as [Hc H]. specialize (IH H).
  destruct (trimEnd s).
  - destruct (isWhiteSpace c); simpl; [reflexivity|now rewrite Hc].
  - cbn [allChars]. cbn [allChars] in IH. now rewrite Hc, IH.
Qed.

Lemma join_solid l rest :
  blank l = false -> blank (join LF (l :: rest)) = false.
Proof.
  intros H. rewrite join_cons. destruct rest; [exact H|].
  now rewrite blank_app, H.
Qed.

Lemma trimEnd_lines ls :
  ls <> [] -> forallb oneLine ls = true -> forallb Gemini.keepLine ls = true ->
  forallb Gemini.keepLine (splitLines (trimEnd (join LF ls))) = true.
Proof.
  induction ls as [|l ls IH]; [congruence|]. intros _ Hone Hkeep.
  cbn [forallb] in Hone, Hkeep.
  apply andb_true_iff in Hone as [Hl Hls].
  apply andb_true_iff in Hkeep as [Kl Kls].
  rewrite join_cons. destruct ls as [|l2 ls].
  - rewrite (splitLines_oneLine _ (oneLine_trimEnd _ Hl)). cbn [forallb].
    now rewrite (keepLine_trim _ l (trim_trimEnd l)), Kl.
  - assert (Hsolid : blank (join LF (l2 :: ls)) = false).
    { apply join_solid, keepLine_solid.
      cbn [forallb] in Kls. now apply andb_true_iff in Kls as [? _]. }
    rewrite <- append_assoc, (trimEnd_app _ _ Hsolid), append_assoc.
    rewrite splitLines_app, (splitLines_oneLine _ Hl), forallb_app.
    cbn [forallb]. rewrite Kl. cbn [andb].
    apply IH; [discriminate|exact Hls|exact Kls].
Qed.

Lemma trim_lines ls :
  ls <> [] -> forallb oneLine ls = true -> forallb Gemini.keepLine ls = true ->
  forallb Gemini.keepLine (splitLines (trim (join LF ls))) = true.
Proof.
  destruct ls as [|l rest]; [congruence|]. intros _ Hone Hkeep.
  cbn [forallb] in Hone, Hkeep.
  apply andb_true_iff in Hone as [Hl Hls].
  apply andb_true_iff in Hkeep as [Kl Kls].
  assert (E : trimStart (join LF (l :: rest)) = join LF (trimStart l :: rest)).
  { rewrite !join_cons. destruct rest; [reflexivity|].
    apply trimStart_app, keepLine_solid, Kl. }
  unfold trim. rewrite E. apply trimEnd_lines; [discriminate| |]; cbn [forallb].
  - unfold trimStart. now rewrite (oneLine_dropWhile _ _ Hl), Hls.
  - now rewrite (keepLine_trim _ l (trim_trimStart l)), Kl, Kls.
Qed.

Lemma forallb_filter {A} (f : A -> bool) l : forallb f (filter f l) = true.
Proof.
  induction l as [|x l IH]; simpl; [reflexivity|].
  destruct (f x) eqn:E; simpl; [now rewrite E|exact IH].
Qed.

Lemma forallb_filter_of {A} (f g : A -> bool) l :
  forallb f l = true -> forallb f (filter g l) = true.
Proof.
  induction l as [|x l IH]; simpl; [reflexivity|].
  intros H. apply andb_true_iff in H as [Hx H].
  destruct (g x); simpl; [now rewrite Hx, IH|now apply IH].
Qed.

(** X18.  What [cleanSqlResponse] returns, when it is not the empty text,
    has SQL lines only: every line of it is kept by the filter of the code,
    so none is blank, none starts with [--], and none starts with here or
    this query in any case, whatever the model wrote. *)
Theorem cleaned_response_has_sql_lines_only response line :
  Gemini.cleanSqlResponse response <> "" ->
  In line (splitLines (Gemini.cleanSqlResponse response)) ->
  Gemini.keepLine line = true.
Proof.
  unfold Gemini.cleanSqlResponse. cbv zeta.
  set (mid := trim (Gemini.removeFenceClose _)).
  intros Hne Hin.
  destruct (filter Gemini.keepLine (splitLines mid)) as [|l ls] eqn:E.
  { now destruct Hne. }
  assert (H : forallb Gemini.keepLine
                (splitLines (trim (join LF (l :: ls)))) = true).
  { apply trim_lines; [discriminate| |]; rewrite <- E.
    - apply forallb_filter_of, splitLines_lines.
    - apply forallb_filter. }
  rewrite forallb_forall in H. exact (H _ Hin).
Qed.

Lemma cleaned_response_has_sql_lines_only_witness :
  Gemini.cleanSqlResponse
    ("Here is the query:" ++ LF ++ "SELECT 1" ++ LF ++ "-- done") = "SELECT 1"
  /\ Gemini.keepLine "SELECT 1" = true.
Proof.
  split; [reflexivity|].
  apply (cleaned_response_has_sql_lines_only
           ("Here is the query:" ++ LF ++ "SELECT 1" ++ LF ++ "-- done")).
  - vm_compute. discriminate.
  - vm_compute. left. reflexivity.
Defined.


(** ** Text around the tag pair *)

Lemma endsWith_app a p : endsWith (a ++ p) p = true.
Proof.
  induction a as [|c a IH].
  - destruct p; simpl; now rewrite ?Ascii.eqb_refl, ?String.eqb_refl.
  - change (String c a ++ p) with (String c (a ++ p)).
    cbn [endsWith]. rewrite IH. apply orb_true_r.
Qed.

Lemma endsWith_tail c s p :
  endsWith (String c s) p = false -> endsWith s p = false.
Proof. cbn [endsWith]. intros H. now apply orb_false_iff in H. Qed.

Lemma tagFree_spec s :
  tagFree s = true -> ~ contains s "<@" /\ ~ contains s "</".
Proof.
  unfold tagFree. intros H. apply andb_true_iff in H as [H1 H2].
  apply negb_true_iff in H1, H2. split; now apply includes_not_contains.
Qed.

Lemma removeAll_skip p a b :
  (forall a1 c a2, a = a1 ++ String c a2 ->
                   startsWith (String c a2 ++ b) p = false) ->
  removeAll p (a ++ b) = a ++ removeAll p b.
Proof.
  unfold removeAll. induction a as [|c a IH]; intros H; [reflexivity|].
  change (String c a ++ b) with (String c (a ++ b)).
  cbn [removeAllFrom].
  rewrite (H "" c a eq_refl : startsWith (String c (a ++ b)) p = false).
  change (String c a ++ removeAllFrom 0 p b)
    with (String c (a ++ removeAllFrom 0 p b)).
  f_equal. apply IH. intros a1 d a2 ->. now apply (H (String c a1) d a2).
Qed.

Lemma contains_app_l a1 p a2 : contains (a1 ++ p ++ a2) p.
Proof. now exists a1, a2. Qed.

(** No tag whose second code unit is [x] starts inside [a], when [a] has
    no "<x" and the junction with [b] cannot make one. *)
Lemma no_tag_inside (x : ascii) (tag : string) a b :
  ~ contains a (String "<" (String x "")) ->
  endsWith a "<" = false \/ startsWith b (String x "") = false ->
  forall a1 c a2, a = a1 ++ String c a2 ->
    startsWith (String c a2 ++ b) (String "<" (String x tag)) = false.
Proof.
  intros Hfree Hend a1 c a2 ->.
  change (String c a2 ++ b) with (String c (a2 ++ b)).
  cbn [startsWith].
  destruct (Ascii.eqb c "<") eqn:Ec; [|reflexivity].
  apply Ascii.eqb_eq in Ec. subst c. cbn [andb].
  destruct a2 as [|d a2].
  - destruct Hend as [Hend|Hend].
    + now rewrite endsWith_app in Hend.
    + destruct b as [|e b]; [reflexivity|].
      simpl in Hend |- *. apply andb_false_iff in Hend as [->|Hend]; [reflexivity|].
      discriminate.
  - change (String d a2 ++ b) with (String d (a2 ++ b)).
    cbn [startsWith].
    destruct (Ascii.eqb d x) eqn:Ed; [|reflexivity].
    apply Ascii.eqb_eq in Ed. subst d. destruct Hfree.
    exact (contains_app_l a1 (String "<" (String x "")) a2).
Qed.

Lemma removeOpen_skip a b :
  tagFree a = true -> endsWith a "<" = false \/ startsWith b "@" = false ->
  removeAll Vertex.queryOpen (a ++ b) = a ++ removeAll Vertex.queryOpen b.
Proof.
  intros H He. apply tagFree_spec in H as [H _]. apply removeAll_skip.
  exact (no_tag_inside "@" "query@>" a b H He).
Qed.

Lemma removeClose_skip a b :
  tagFree a = true -> endsWith a "<" = false \/ startsWith b "/" = false ->
  removeAll Vertex.queryClose (a ++ b) = a ++ removeAll Vertex.queryClose b.
Proof.
  intros H He. apply tagFree_spec in H as [_ H]. apply removeAll_skip.
  exact (no_tag_inside "/" "@query@>" a b H He).
Qed.

Lemma removeOpen_free a : tagFree a = true -> removeAll Vertex.queryOpen a = a.
Proof.
  intros H. rewrite <- (append_empty_r a) at 1.
  rewrite removeOpen_skip; [now rewrite append_empty_r|exact H|now right].
Qed.

Lemma removeClose_free a : tagFree a = true -> removeAll Vertex.queryClose a = a.
Proof.
  intros H. rewrite <- (append_empty_r a) at 1.
  rewrite removeClose_skip; [now rewrite append_empty_r|exact H|now right].
Qed.

Lemma includes_open_app a b :
  tagFree a = true -> endsWith a "<" = false ->
  includes (a ++ b) "<@" = includes b "<@".
Proof.
  intros H. apply tagFree_spec in H as [H _]. induction a as [|c a IH]; intros He; [reflexivity|].
  change (String c a ++ b) with (String c (a ++ b)).
  cbn [includes].
  assert (E : startsWith (String c (a ++ b)) "<@" = false).
  { exact (no_tag_inside "@" "" (String c a) b H (or_introl He) "" c a eq_refl). }
  rewrite E. cbn [orb].
  destruct a as [|d a]; [reflexivity|].
  apply IH.
  - intros (x & y & E'). apply H. exists (String c x), y. now rewrite E'.
  - exact (endsWith_tail c _ _ He).
Qed.

Lemma extractQuery_around pre body post :
  tagFree pre = true -> tagFree body = true -> tagFree post = true ->
  endsWith pre "<" = false -> endsWith body "<" = false ->
  Vertex.extractQuery
    (pre ++ Vertex.queryOpen ++ body ++ Vertex.queryClose ++ post)
  = pre ++ body ++ post.
Proof.
  intros Hpre Hbody Hpost Epre Ebody.
  set (response := pre ++ Vertex.queryOpen ++ body ++ Vertex.queryClose ++ post).
  unfold Vertex.extractQuery.
  assert (Hpair : Vertex.queryPairMatch response = true).
  { apply queryPairMatch_spec. now exists pre, body, post. }
  rewrite Hpair.
  assert (Hin : includes response Vertex.queryOpen = true).
  { apply includes_spec. now exists pre, (body ++ Vertex.queryClose ++ post). }
  destruct (String.length response) as [|fuel] eqn:El.
  { destruct response; [discriminate Hin|discriminate El]. }
  cbn [Vertex.stripTags]. rewrite Hin.
  assert (E1 : removeAll Vertex.queryOpen response
               = pre ++ body ++ Vertex.queryClose ++ post).
  { unfold response.
    rewrite (removeOpen_skip pre _ Hpre (or_introl Epre)).
    change (removeAll Vertex.queryOpen
              (Vertex.queryOpen ++ body ++ Vertex.queryClose ++ post))
      with (removeAll Vertex.queryOpen (body ++ Vertex.queryClose ++ post)).
    rewrite (removeOpen_skip body (Vertex.queryClose ++ post) Hbody
               (or_intror eq_refl)).
    change (removeAll Vertex.queryOpen (Vertex.queryClose ++ post))
      with ("</" ++ removeAll Vertex.queryOpen ("@query@>" ++ post)).
    change (removeAll Vertex.queryOpen ("@query@>" ++ post))
      with ("@query@>" ++ removeAll Vertex.queryOpen post).
    now rewrite (removeOpen_free post Hpost). }
  rewrite E1.
  assert (E2 : removeAll Vertex.queryClose
                 (pre ++ body ++ Vertex.queryClose ++ post)
               = pre ++ body ++ post).
  { rewrite (removeClose_skip pre _ Hpre (or_introl Epre)).
    rewrite (removeClose_skip body (Vertex.queryClose ++ post) Hbody
               (or_intror eq_refl)).
    change (removeAll Vertex.queryClose (Vertex.queryClose ++ post))
      with (removeAll Vertex.queryClose post).
    now rewrite (removeClose_free post Hpost). }
  rewrite E2.
  apply stripTags_plain.
  apply (includes_longer _ "<@" "query@>").
  rewrite (includes_open_app pre _ Hpre Epre).
  rewrite (includes_open_app body _ Hbody Ebody).
  apply includes_not_contains, (tagFree_spec _ Hpost).
Qed.

(** X19.  The parser does not use the group its pattern captures: for a
    response with one tag pair, in which nothing else starts like a tag,
    the text extracted is the whole response without the two tags, so what
    the model wrote before the opening tag and after the closing tag is
    part of the SQL text; that text is what the validator is given and what
    is returned when the validator accepts it. *)
Theorem text_around_the_tags_is_kept (db : Database)
  (pre body post : string) (t : trace) :
  tagFree pre = true -> tagFree body = true -> tagFree post = true ->
  endsWith pre "<" = false -> endsWith body "<" = false ->
  Vertex.extractQuery
    (pre ++ Vertex.queryOpen ++ body ++ Vertex.queryClose ++ post)
  = pre ++ body ++ post
  /\
  (pre ++ body ++ post <> "" ->
   forall v t2,
     Vertex.validateSqlSyntax db (pre ++ body ++ post)
       (Log Debug "Extracted SQL query from LLM response"
          :: Log Debug "Starting response parsing and validation" :: t)
     = (Ok v, t2) ->
     isValid v = true ->
     Vertex.parseAndValidateResponse db
       (pre ++ Vertex.queryOpen ++ body ++ Vertex.queryClose ++ post) t
     = (Ok (pre ++ body ++ post),
        Log Info "SQL parsing and validation completed successfully" :: t2)).
Proof.
  intros Hpre Hbody Hpost Epre Ebody.
  pose proof (extractQuery_around pre body post Hpre Hbody Hpost Epre Ebody) as E.
  split; [exact E|].
  intros Hne v t2 Hv Hvalid.
  rewrite parseAndValidateResponse_run, E. cbv zeta.
  destruct (pre ++ body ++ post); [contradiction|]. cbn [truthy negb].
  now rewrite Hv, Hvalid.
Qed.

Lemma text_around_the_tags_is_kept_witness :
  Vertex.extractQuery
    "Sure: <@query@>SELECT 1 WHERE 1 < 2</@query@><explanation>one row"
  = "Sure: SELECT 1 WHERE 1 < 2<explanation>one row".
Proof.
  exact (proj1 (text_around_the_tags_is_kept productsDb
                  "Sure: " "SELECT 1 WHERE 1 < 2" "<explanation>one row" []
                  eq_refl eq_refl eq_refl eq_refl eq_refl)).
Defined.
